(** * gRPC microservices behind an API gateway

    A shallow embedding of the three processes of the repository:

    - [UserService]  (services/user-service/server.js),
    - [OrderService] (services/order-service/server.js),
    - [Gateway]      (gateway/server.js, the Express application),

    together with the pieces of their platform that the handlers rely on
    ([JS]: truthiness, [String.prototype.trim], [Map]; [uuid]; [Grpc]: the
    callback protocol of a unary call).  Every handler keeps the name it
    has in the source. *)

From Stdlib Require Import ZArith List String Ascii Bool Lia DecimalString.
From Stdlib Require Import Floats.PrimFloat Floats.SpecFloat Floats.FloatOps.
Import ListNotations.

Set Implicit Arguments.
Local Open Scope string_scope.

(** ** The state monad the handlers run in

    A handler reads and writes the [Map] its process owns.  [M S A] is a
    computation over a store of type [S] that returns an [A]. *)

Definition M (S A : Type) : Type := S -> A * S.

Definition ret {S A : Type} (a : A) : M S A := fun s => (a, s).

Definition bind {S A B : Type} (m : M S A) (k : A -> M S B) : M S B :=
  fun s => let (a, s') := m s in k a s'.

Notation "x <- m ;; k" := (bind m (fun x => k))
  (at level 61, m at next level, right associativity).
Notation "m ;; k" := (bind m (fun _ => k))
  (at level 61, right associativity).

(** ** The JavaScript the handlers use *)

Module JS.

(** A JS number is an IEEE 754 binary64 value. *)
Definition number : Type := float.

(** [!x] is true of a number exactly when it is [NaN], [+0] or [-0]. *)
Definition falsy_number (x : number) : bool := is_nan x || is_zero x.

(** [!s] is true of a string exactly when it is empty. *)
Definition falsy_string (s : string) : bool := (s =? "")%string.

(** ECMAScript [ToInt32], the [x | 0] protobufjs applies to an [int32]
    field: NaN, the zeros and the infinities give 0; any other number
    gives its integer part, modulo 2^32, read as a signed 32-bit
    integer. *)
Definition ToInt32 (x : number) : Z :=
  if is_nan x || is_zero x || is_infinity x then 0%Z
  else
    match Prim2SF x with
    | S754_finite s m e =>
        let mag := Z.shiftl (Zpos m) e in
        let int := if s then (- mag)%Z else mag in
        let int32bit := (int mod 2 ^ 32)%Z in
        if (2 ^ 31 <=? int32bit)%Z then (int32bit - 2 ^ 32)%Z else int32bit
    | _ => 0%Z
    end.

(** Strings are sequences of code units; a character of [string] stands
    for a code unit below 256.  The white space and line terminators of
    ECMAScript in that range: TAB, LF, VT, FF, CR, SP and NBSP. *)
Definition isWhiteSpace (c : ascii) : bool :=
  let n := nat_of_ascii c in
  ((9 <=? n) && (n <=? 13) || (n =? 32) || (n =? 160))%nat.

Fixpoint trimStart (s : string) : string :=
  match s with
  | EmptyString => EmptyString
  | String c t => if isWhiteSpace c then trimStart t else s
  end.

Fixpoint trimEnd (s : string) : string :=
  match s with
  | EmptyString => EmptyString
  | String c t =>
      match trimEnd t with
      | EmptyString => if isWhiteSpace c then EmptyString else String c EmptyString
      | t' => String c t'
      end
  end.

(** [s.trim()] *)
Definition trim (s : string) : string := trimEnd (trimStart s).

(** A template literal's rendering of [list.length]. *)
Definition string_of_length (n : nat) : string :=
  NilZero.string_of_uint (Nat.to_uint n).

(** What a field of a parsed JSON body can hold (arrays and objects left
    out).  [undefined] is a field that is absent. *)
Inductive value : Type :=
| undefined
| null
| boolean (b : bool)
| num (n : number)
| str (s : string).

(** The global functions [parseFloat] and [parseInt] belong to the
    language, not to the repository.  The gateway is written against
    this interface; both return [NaN] when no numeric prefix is found. *)
Class Globals : Type := {
  parseFloat : value -> number;
  parseInt : value -> number
}.

(** *** [Map]: keyed by strings, iterated in insertion order

    An association list with pairwise distinct keys, oldest entry
    first.  [set] overwrites the value of a key that is present, in
    place, and appends a key that is not. *)
Definition Map (V : Type) : Type := list (string * V).

Fixpoint get {V : Type} (m : Map V) (key : string) : option V :=
  match m with
  | [] => None
  | (k, v) :: m' => if (k =? key)%string then Some v else get m' key
  end.

Fixpoint set {V : Type} (m : Map V) (key : string) (v : V) : Map V :=
  match m with
  | [] => [(key, v)]
  | (k, v0) :: m' =>
      if (k =? key)%string then (k, v) :: m' else (k, v0) :: set m' key v
  end.

Definition keys {V : Type} (m : Map V) : list string := map fst m.
Definition values {V : Type} (m : Map V) : list V := map snd m.
Definition size {V : Type} (m : Map V) : nat := List.length m.

End JS.

(** The [Map] operations as store computations. *)
Definition Map_get {V : Type} (key : string) : M (JS.Map V) (option V) :=
  fun m => (JS.get m key, m).

Definition Map_set {V : Type} (key : string) (v : V) : M (JS.Map V) unit :=
  fun m => (tt, JS.set m key v).

Definition Map_values {V : Type} : M (JS.Map V) (list V) :=
  fun m => (JS.values m, m).

(** ** What a process draws from its environment when it creates a record:
    the 16 random bytes behind [uuidv4()] and the text of
    [new Date().toISOString()]. *)

Record Entropy : Type := {
  rnds : list Z;
  now : string
}.

(** ** The [uuid] package: [v4] sets the version and variant bits of the
    random bytes and prints them as 8-4-4-4-12 lower-case hex digits. *)

Module uuid.

Definition hexDigit (n : Z) : ascii :=
  nth (Z.to_nat n)
    ["0"; "1"; "2"; "3"; "4"; "5"; "6"; "7";
     "8"; "9"; "a"; "b"; "c"; "d"; "e"; "f"]%char "0"%char.

Definition byteToHex (b : Z) : string :=
  String (hexDigit (Z.land (Z.shiftr b 4) 15))
    (String (hexDigit (Z.land b 15)) EmptyString).

Definition v4 (rnds : list Z) : string :=
  let byte i := Z.land (nth i rnds 0%Z) 255 in
  let b i :=
    if (i =? 6)%nat then Z.lor (Z.land (byte i) 15) 64
    else if (i =? 8)%nat then Z.lor (Z.land (byte i) 63) 128
    else byte i in
  let hex i := byteToHex (b i) in
  hex 0%nat ++ hex 1%nat ++ hex 2%nat ++ hex 3%nat ++ "-" ++
  hex 4%nat ++ hex 5%nat ++ "-" ++
  hex 6%nat ++ hex 7%nat ++ "-" ++
  hex 8%nat ++ hex 9%nat ++ "-" ++
  hex 10%nat ++ hex 11%nat ++ hex 12%nat ++ hex 13%nat ++
  hex 14%nat ++ hex 15%nat.

End uuid.

(** ** A unary gRPC call, as its client sees it *)

Module Grpc.

(** The error a client callback receives; the handlers read only its
    [message]. *)
Record ServiceError : Type := { message : string }.

(** [callback(error, response)]: a response, or a transport-level
    error.  Application-level failures travel inside [ok]. *)
Inductive outcome (A : Type) : Type :=
| ok (response : A)
| error (e : ServiceError).
Arguments error {A} e.

(** The channel to a peer during one call: it delivers, or it fails
    before the peer has run the handler, or it fails after. *)
Inductive link : Type :=
| up
| request_lost (e : ServiceError)
| response_lost (e : ServiceError).

Definition unary {S A : Type} (l : link) (handler : M S A) : M S (outcome A) :=
  match l with
  | up => response <- handler ;; ret (ok response)
  | request_lost e => ret (error e)
  | response_lost e => handler ;; ret (error e)
  end.

End Grpc.


(** ** The messages of proto/user.proto and proto/order.proto

    The two .proto files are not among the sources.  Each message below
    has the fields the handlers read and write, under the names the
    handlers use, with the types the data model of the specification
    gives them.  The services load the files with [defaults: true]: a
    field the sender left out arrives as the empty string or as zero, and
    a message-typed field that is not set arrives as [null] ([None]). *)

Module User.
(** Modelled from the spec: "User: identifier (opaque unique string,
    generated on creation), display name, contact address, creation
    timestamp"; the record [CreateUser] builds. *)
Record t : Type := {
  id : string;
  name : string;
  email : string;
  created_at : string
}.
End User.

Module GetUserRequest.
(** Modelled from the spec: the request of [GetUser], one text field. *)
Record t : Type := { user_id : string }.
End GetUserRequest.

Module CreateUserRequest.
(** Modelled from the spec: the request of [CreateUser], name and
    address, both text. *)
Record t : Type := { name : string; email : string }.
End CreateUserRequest.

Module UserResponse.
(** Modelled from the spec: "{success, message, user}", the response of
    [GetUser] and [CreateUser]. *)
Record t : Type := {
  success : bool;
  message : string;
  user : option User.t
}.
End UserResponse.

Module ListUsersResponse.
(** Modelled from the spec: "{success, message, users: [...]}". *)
Record t : Type := {
  success : bool;
  message : string;
  users : list User.t
}.
End ListUsersResponse.

Module Order.
(** Modelled from the spec: "Order: identifier, owning-user identifier,
    product label, monetary amount (non-negative numeric), quantity
    (positive integer), status, creation timestamp": the amount is taken
    to be a [double] field and the quantity an [int32] field, which a
    handler sees as a number with an integral value. *)
Record t : Type := {
  id : string;
  user_id : string;
  product_name : string;
  amount : JS.number;
  quantity : Z;
  status : string;
  created_at : string
}.
End Order.

Module CreateOrderRequest.
(** Modelled from the spec: the request of [CreateOrder], with the field
    types of [Order]. *)
Record t : Type := {
  user_id : string;
  product_name : string;
  amount : JS.number;
  quantity : Z
}.
End CreateOrderRequest.

Module GetOrderRequest.
(** Modelled from the spec: the request of [GetOrder], one text field. *)
Record t : Type := { order_id : string }.
End GetOrderRequest.

Module GetOrdersByUserRequest.
(** Modelled from the spec: the request of [GetOrdersByUser], one text
    field. *)
Record t : Type := { user_id : string }.
End GetOrdersByUserRequest.

Module OrderResponse.
(** Modelled from the spec: "{success, message, order}", the response of
    [CreateOrder] and [GetOrder]. *)
Record t : Type := {
  success : bool;
  message : string;
  order : option Order.t
}.
End OrderResponse.

Module OrdersResponse.
(** Modelled from the spec: "{success, message, orders: [...]}". *)
Record t : Type := {
  success : bool;
  message : string;
  orders : list Order.t
}.
End OrdersResponse.

(** ** services/user-service/server.js *)

Module UserService.

(** [const users = new Map()] *)
Definition users : Type := JS.Map User.t.

Definition GetUser (request : GetUserRequest.t) : M users UserResponse.t :=
  let user_id := GetUserRequest.user_id request in
  if JS.falsy_string user_id then
    ret {| UserResponse.success := false;
           UserResponse.message := "User ID is required";
           UserResponse.user := None |}
  else
    user <- Map_get user_id ;;
    match user with
    | None =>
        ret {| UserResponse.success := false;
               UserResponse.message := "User not found";
               UserResponse.user := None |}
    | Some user =>
        ret {| UserResponse.success := true;
               UserResponse.message := "User found";
               UserResponse.user := Some user |}
    end.

Definition CreateUser (entropy : Entropy) (request : CreateUserRequest.t)
  : M users UserResponse.t :=
  let name := CreateUserRequest.name request in
  let email := CreateUserRequest.email request in
  if JS.falsy_string name || JS.falsy_string email then
    ret {| UserResponse.success := false;
           UserResponse.message := "Name and email are required";
           UserResponse.user := None |}
  else
    let user := {| User.id := uuid.v4 (rnds entropy);
                   User.name := name;
                   User.email := email;
                   User.created_at := now entropy |} in
    Map_set (User.id user) user ;;
    ret {| UserResponse.success := true;
           UserResponse.message := "User created successfully";
           UserResponse.user := Some user |}.

Definition ListUsers : M users ListUsersResponse.t :=
  userList <- Map_values ;;
  ret {| ListUsersResponse.success := true;
         ListUsersResponse.message :=
           "Found " ++ JS.string_of_length (List.length userList) ++ " users";
         ListUsersResponse.users := userList |}.

End UserService.

(** ** services/order-service/server.js *)

Module OrderService.

(** [const orders = new Map()] *)
Definition orders : Type := JS.Map Order.t.

(** An [async] handler: it runs to its [callback] on the order store, or
    it first awaits a [userClient.GetUser] call and goes on with what the
    call's callback received.  Nothing touches the store before the
    awaited call has completed. *)
Inductive task (A : Type) : Type :=
| callback (m : M orders A)
| userClient_GetUser (request : GetUserRequest.t)
    (k : Grpc.outcome UserResponse.t -> task A).

(** The promise of [verifyUser] resolves with [response.user] and rejects
    with the call's error. *)
Definition verifyUser {A : Type} (userId : string)
  (k : Grpc.outcome (option User.t) -> task A) : task A :=
  userClient_GetUser {| GetUserRequest.user_id := userId |}
    (fun r =>
       match r with
       | Grpc.error e => k (Grpc.error e)
       | Grpc.ok response => k (Grpc.ok (UserResponse.user response))
       end).

(** [!quantity] on the number decoded from an [int32] field. *)
Definition falsy_int32 (n : Z) : bool := (n =? 0)%Z.

Definition CreateOrder (entropy : Entropy) (request : CreateOrderRequest.t)
  : task OrderResponse.t :=
  let user_id := CreateOrderRequest.user_id request in
  let product_name := CreateOrderRequest.product_name request in
  let amount := CreateOrderRequest.amount request in
  let quantity := CreateOrderRequest.quantity request in
  if JS.falsy_string user_id || JS.falsy_string product_name
     || JS.falsy_number amount || falsy_int32 quantity then
    callback
      (ret {| OrderResponse.success := false;
              OrderResponse.message :=
                "User ID, Product Name, Amount and Quantity are required";
              OrderResponse.order := None |})
  else
    verifyUser user_id
      (fun r =>
         match r with
         | Grpc.error error =>
             callback
               (ret {| OrderResponse.success := false;
                       OrderResponse.message := Grpc.message error;
                       OrderResponse.order := None |})
         | Grpc.ok None =>
             callback
               (ret {| OrderResponse.success := false;
                       OrderResponse.message := "Invalid User ID";
                       OrderResponse.order := None |})
         | Grpc.ok (Some userReponse) =>
             let order := {| Order.id := uuid.v4 (rnds entropy);
                             Order.user_id := user_id;
                             Order.product_name := product_name;
                             Order.amount := amount;
                             Order.quantity := quantity;
                             Order.status := "pending";
                             Order.created_at := now entropy |} in
             callback
               (Map_set (Order.id order) order ;;
                ret {| OrderResponse.success := true;
                       OrderResponse.message := "Order created successfully";
                       OrderResponse.order := Some order |})
         end).

Definition GetOrder (request : GetOrderRequest.t) : M orders OrderResponse.t :=
  let order_id := GetOrderRequest.order_id request in
  if JS.falsy_string order_id then
    ret {| OrderResponse.success := false;
           OrderResponse.message := "Order ID is required";
           OrderResponse.order := None |}
  else
    order <- Map_get order_id ;;
    match order with
    | None =>
        ret {| OrderResponse.success := false;
               OrderResponse.message := "Order not found";
               OrderResponse.order := None |}
    | Some order =>
        ret {| OrderResponse.success := true;
               OrderResponse.message := "Order retrieved successfully";
               OrderResponse.order := Some order |}
    end.

Definition GetOrdersByUser (request : GetOrdersByUserRequest.t)
  : M orders OrdersResponse.t :=
  let user_id := GetOrdersByUserRequest.user_id request in
  if JS.falsy_string user_id then
    ret {| OrdersResponse.success := false;
           OrdersResponse.message := "User ID is required";
           OrdersResponse.orders := [] |}
  else
    all <- Map_values ;;
    let userOrders :=
      filter (fun order => (Order.user_id order =? user_id)%string) all in
    ret {| OrdersResponse.success := true;
           OrdersResponse.message := "Orders retrieved successfully";
           OrdersResponse.orders := userOrders |}.

End OrderService.

(** ** gateway/server.js *)

(** The bodies the Express application receives.  A text field of a body
    is a string or is absent ([None], also standing for [null]); the two
    numeric fields of an order may hold any JSON scalar. *)

Module PostUsersBody.
Record t : Type := { name : option string; email : option string }.
End PostUsersBody.

Module PostOrdersBody.
Record t : Type := {
  user_id : option string;
  product_name : option string;
  amount : JS.value;
  quantity : JS.value
}.
End PostOrdersBody.

(** The objects the gateway hands to its client stubs, before
    serialisation. *)

Module CreateUserObject.
Record t : Type := { name : option string; email : option string }.
End CreateUserObject.

Module CreateOrderObject.
Record t : Type := {
  user_id : option string;
  product_name : option string;
  amount : JS.number;
  quantity : JS.number
}.
End CreateOrderObject.

(** The object literals the gateway builds for its own responses. *)

Module ErrorBody.
Record t : Type := { success : bool; message : string; error : string }.
End ErrorBody.

Module MessageBody.
Record t : Type := { success : bool; message : string }.
End MessageBody.

Module ProfileData.
Record t : Type := {
  user : option User.t;
  orders : list Order.t;
  order_count : nat
}.
End ProfileData.

Module ProfileBody.
Record t : Type := { success : bool; message : string; data : ProfileData.t }.
End ProfileBody.

Module HealthServices.
Record t : Type := { user_service : string; order_service : string }.
End HealthServices.

Module HealthBody.
Record t : Type := {
  status : string;
  timestamp : string;
  services : HealthServices.t
}.
End HealthBody.

Module Gateway.

(** What [res.json] is given: a backend response passed on as it came, or
    one of the gateway's own object literals.  The literal of the local
    rejection, [{success, message, user}], has the fields of a
    [UserResponse]. *)
Inductive json : Type :=
| of_UserResponse (response : UserResponse.t)
| of_ListUsersResponse (response : ListUsersResponse.t)
| of_OrderResponse (response : OrderResponse.t)
| of_OrdersResponse (response : OrdersResponse.t)
| of_ErrorBody (body : ErrorBody.t)
| of_MessageBody (body : MessageBody.t)
| of_ProfileBody (body : ProfileBody.t)
| of_HealthBody (body : HealthBody.t).

(** [res.status(status).json(body)]; [res.json(body)] has status 200. *)
Record response : Type := { status : nat; body : json }.

(** The methods of the two client stubs, each with the type of its
    response. *)
Inductive rpc : Type -> Type :=
| userClient_GetUser (request : GetUserRequest.t) : rpc UserResponse.t
| userClient_CreateUser (request : CreateUserObject.t) : rpc UserResponse.t
| userClient_ListUsers : rpc ListUsersResponse.t
| orderClient_CreateOrder (request : CreateOrderObject.t) : rpc OrderResponse.t
| orderClient_GetOrder (request : GetOrderRequest.t) : rpc OrderResponse.t
| orderClient_GetOrdersByUser (request : GetOrdersByUserRequest.t)
  : rpc OrdersResponse.t.

(** A route handler: it answers, or it issues one call and goes on in the
    call's callback, or it issues two calls at once and goes on with what
    [await Promise.all] gives (both responses, or the rejection). *)
Inductive handler : Type :=
| res (r : response)
| call {A : Type} (c : rpc A) (callback : Grpc.outcome A -> handler)
| await_Promise_all {A B : Type} (c1 : rpc A) (c2 : rpc B)
    (k : Grpc.outcome (A * B) -> handler).

Definition res_json (body : json) : handler :=
  res {| status := 200; body := body |}.

Definition res_status_json (status : nat) (body : json) : handler :=
  res {| status := status; body := body |}.

Definition handleGrpcError (error : Grpc.ServiceError) : handler :=
  res_status_json 500
    (of_ErrorBody {| ErrorBody.success := false;
                     ErrorBody.message := "Internal server error";
                     ErrorBody.error := Grpc.message error |}).

(** The external requests the application routes. *)
Inductive request : Type :=
| POST_api_users (body : PostUsersBody.t)
| GET_api_users_userId (userId : string)
| GET_api_users
| POST_api_orders (body : PostOrdersBody.t)
| GET_api_orders_orderId (orderId : string)
| GET_api_users_userId_orders (userId : string)
| GET_health
| GET_api_users_userId_profile (userId : string).

Section Routes.

Context {globals : JS.Globals}.

Definition post_api_users (body : PostUsersBody.t) : handler :=
  let name := PostUsersBody.name body in
  let email := PostUsersBody.email body in
  call (userClient_CreateUser {| CreateUserObject.name := name;
                                 CreateUserObject.email := email |})
    (fun r =>
       match r with
       | Grpc.error error => handleGrpcError error
       | Grpc.ok response => res_json (of_UserResponse response)
       end).

Definition get_api_users_userId (userId : string) : handler :=
  if JS.falsy_string userId || (userId =? "undefined") || (userId =? "null")
     || (JS.trim userId =? "") then
    res_status_json 400
      (of_UserResponse {| UserResponse.success := false;
                          UserResponse.message := "Valid user ID is required";
                          UserResponse.user := None |})
  else
    let request := {| GetUserRequest.user_id := JS.trim userId |} in
    call (userClient_GetUser request)
      (fun r =>
         match r with
         | Grpc.error error => handleGrpcError error
         | Grpc.ok response => res_json (of_UserResponse response)
         end).

Definition get_api_users : handler :=
  call userClient_ListUsers
    (fun r =>
       match r with
       | Grpc.error error => handleGrpcError error
       | Grpc.ok response => res_json (of_ListUsersResponse response)
       end).

Definition post_api_orders (body : PostOrdersBody.t) : handler :=
  let user_id := PostOrdersBody.user_id body in
  let product_name := PostOrdersBody.product_name body in
  let amount := PostOrdersBody.amount body in
  let quantity := PostOrdersBody.quantity body in
  call (orderClient_CreateOrder
          {| CreateOrderObject.user_id := user_id;
             CreateOrderObject.product_name := product_name;
             CreateOrderObject.amount := JS.parseFloat amount;
             CreateOrderObject.quantity := JS.parseInt quantity |})
    (fun r =>
       match r with
       | Grpc.error error => handleGrpcError error
       | Grpc.ok response => res_json (of_OrderResponse response)
       end).

Definition get_api_orders_orderId (orderId : string) : handler :=
  call (orderClient_GetOrder {| GetOrderRequest.order_id := orderId |})
    (fun r =>
       match r with
       | Grpc.error error => handleGrpcError error
       | Grpc.ok response => res_json (of_OrderResponse response)
       end).

Definition get_api_users_userId_orders (userId : string) : handler :=
  call (orderClient_GetOrdersByUser
          {| GetOrdersByUserRequest.user_id := userId |})
    (fun r =>
       match r with
       | Grpc.error error => handleGrpcError error
       | Grpc.ok response => res_json (of_OrdersResponse response)
       end).

Definition get_health (timestamp : string) : handler :=
  res_json
    (of_HealthBody
       {| HealthBody.status := "healthy";
          HealthBody.timestamp := timestamp;
          HealthBody.services :=
            {| HealthServices.user_service := "localhost:50051";
               HealthServices.order_service := "localhost:50052" |} |}).

Definition get_api_users_userId_profile (userId : string) : handler :=
  await_Promise_all
    (userClient_GetUser {| GetUserRequest.user_id := userId |})
    (orderClient_GetOrdersByUser {| GetOrdersByUserRequest.user_id := userId |})
    (fun r =>
       match r with
       | Grpc.error error => handleGrpcError error
       | Grpc.ok (userResponse, ordersResponse) =>
           (* [ordersResponse.orders] is an array, hence truthy: the
              [|| []] and [? :] of the source keep the array and take its
              length. *)
           if negb (UserResponse.success userResponse) then
             res_status_json 404
               (of_MessageBody {| MessageBody.success := false;
                                  MessageBody.message := "User not found" |})
           else
             res_json
               (of_ProfileBody
                  {| ProfileBody.success := true;
                     ProfileBody.message := "User profile retrieved successfully";
                     ProfileBody.data :=
                       {| ProfileData.user := UserResponse.user userResponse;
                          ProfileData.orders :=
                            OrdersResponse.orders ordersResponse;
                          ProfileData.order_count :=
                            List.length (OrdersResponse.orders ordersResponse) |} |})
       end).

(** The router; [timestamp] is the [new Date().toISOString()] of the
    health route. *)
Definition app (timestamp : string) (req : request) : handler :=
  match req with
  | POST_api_users body => post_api_users body
  | GET_api_users_userId userId => get_api_users_userId userId
  | GET_api_users => get_api_users
  | POST_api_orders body => post_api_orders body
  | GET_api_orders_orderId orderId => get_api_orders_orderId orderId
  | GET_api_users_userId_orders userId => get_api_users_userId_orders userId
  | GET_health => get_health timestamp
  | GET_api_users_userId_profile userId => get_api_users_userId_profile userId
  end.

End Routes.

End Gateway.

(** ** The three processes together *)

Module System.

(** The two stores; each lives in the process of its service. *)
Record World : Type := {
  users : UserService.users;
  orders : OrderService.orders
}.

Definition in_users {A : Type} (m : M UserService.users A) : M World A :=
  fun w =>
    let (a, users') := m (users w) in
    (a, {| users := users'; orders := orders w |}).

Definition in_orders {A : Type} (m : M OrderService.orders A) : M World A :=
  fun w =>
    let (a, orders') := m (orders w) in
    (a, {| users := users w; orders := orders' |}).

(** What the environment decides during one external request: the state
    of the three channels, the randomness and clock of each service, the
    clock of the gateway, and, when both calls of a [Promise.all] are
    rejected, which rejection came first. *)
Record Env : Type := {
  gateway_user : Grpc.link;
  gateway_order : Grpc.link;
  order_user : Grpc.link;
  user_entropy : Entropy;
  order_entropy : Entropy;
  gateway_clock : string;
  second_rejects_first : bool
}.

(** The order service at work: the awaited call goes to the user service
    over the channel between the two. *)
Fixpoint run_task {A : Type} (order_user : Grpc.link) (t : OrderService.task A)
  : M World A :=
  match t with
  | OrderService.callback m => in_orders m
  | OrderService.userClient_GetUser request k =>
      r <- Grpc.unary order_user (in_users (UserService.GetUser request)) ;;
      run_task order_user (k r)
  end.

(** protobufjs [fromObject], by field type: a string field that is absent
    or [null] takes the default; an [int32] field is [value | 0]; a
    [double] field keeps the number. *)
Definition string_field (x : option string) : string :=
  match x with
  | Some s => s
  | None => ""
  end.

Definition CreateUserRequest_fromObject (o : CreateUserObject.t)
  : CreateUserRequest.t :=
  {| CreateUserRequest.name := string_field (CreateUserObject.name o);
     CreateUserRequest.email := string_field (CreateUserObject.email o) |}.

Definition CreateOrderRequest_fromObject (o : CreateOrderObject.t)
  : CreateOrderRequest.t :=
  {| CreateOrderRequest.user_id := string_field (CreateOrderObject.user_id o);
     CreateOrderRequest.product_name :=
       string_field (CreateOrderObject.product_name o);
     CreateOrderRequest.amount := CreateOrderObject.amount o;
     CreateOrderRequest.quantity := JS.ToInt32 (CreateOrderObject.quantity o) |}.

(** The service a call is addressed to runs its handler on the decoded
    request. *)
Definition serve (env : Env) {A : Type} (c : Gateway.rpc A) : M World A :=
  match c in Gateway.rpc A return M World A with
  | Gateway.userClient_GetUser request =>
      in_users (UserService.GetUser request)
  | Gateway.userClient_CreateUser o =>
      in_users (UserService.CreateUser (user_entropy env)
                  (CreateUserRequest_fromObject o))
  | Gateway.userClient_ListUsers =>
      in_users UserService.ListUsers
  | Gateway.orderClient_CreateOrder o =>
      run_task (order_user env)
        (OrderService.CreateOrder (order_entropy env)
           (CreateOrderRequest_fromObject o))
  | Gateway.orderClient_GetOrder request =>
      in_orders (OrderService.GetOrder request)
  | Gateway.orderClient_GetOrdersByUser request =>
      in_orders (OrderService.GetOrdersByUser request)
  end.

(** The channel a client stub of the gateway talks over. *)
Definition channel (env : Env) {A : Type} (c : Gateway.rpc A) : Grpc.link :=
  match c with
  | Gateway.userClient_GetUser _
  | Gateway.userClient_CreateUser _
  | Gateway.userClient_ListUsers => gateway_user env
  | Gateway.orderClient_CreateOrder _
  | Gateway.orderClient_GetOrder _
  | Gateway.orderClient_GetOrdersByUser _ => gateway_order env
  end.

Definition perform (env : Env) {A : Type} (c : Gateway.rpc A)
  : M World (Grpc.outcome A) :=
  Grpc.unary (channel env c) (serve env c).

(** [Promise.all] of two promises fulfils with both values, and rejects
    with the reason of whichever promise rejected first. *)
Definition Promise_all {A B : Type} (second_first : bool)
  (r1 : Grpc.outcome A) (r2 : Grpc.outcome B) : Grpc.outcome (A * B) :=
  match r1, r2 with
  | Grpc.ok a, Grpc.ok b => Grpc.ok (a, b)
  | Grpc.error e, Grpc.ok _ => Grpc.error e
  | Grpc.ok _, Grpc.error e => Grpc.error e
  | Grpc.error e1, Grpc.error e2 => Grpc.error (if second_first then e2 else e1)
  end.

(** One external request, from the route handler to the response. *)
Fixpoint run (env : Env) (h : Gateway.handler) : M World Gateway.response :=
  match h with
  | Gateway.res r => ret r
  | Gateway.call c callback =>
      r <- perform env c ;;
      run env (callback r)
  | Gateway.await_Promise_all c1 c2 k =>
      r1 <- perform env c1 ;;
      r2 <- perform env c2 ;;
      run env (k (Promise_all (second_rejects_first env) r1 r2))
  end.

Definition handle {globals : JS.Globals} (env : Env) (req : Gateway.request)
  : M World Gateway.response :=
  run env (Gateway.app (gateway_clock env) req).

(** The calls that only read. *)
Definition read_only {A : Type} (c : Gateway.rpc A) : bool :=
  match c with
  | Gateway.userClient_GetUser _
  | Gateway.userClient_ListUsers
  | Gateway.orderClient_GetOrder _
  | Gateway.orderClient_GetOrdersByUser _ => true
  | Gateway.userClient_CreateUser _
  | Gateway.orderClient_CreateOrder _ => false
  end.

(** A sequence of calls, each served in the world the previous one left. *)
Definition any_rpc : Type := { A : Type & Gateway.rpc A }.

Fixpoint serve_all (env : Env) (cs : list any_rpc) (w : World) : World :=
  match cs with
  | [] => w
  | existT _ _ c :: cs' => serve_all env cs' (snd (serve env c w))
  end.

End System.

(** ** An instance of the two globals, for running the model

    [parseFloat] and [parseInt] on the inputs the examples use: absent
    fields, [null] and booleans (no numeric prefix: [NaN]); numbers
    ([parseFloat] gives the number back, minus zero as zero, and
    [parseInt] does so for whole numbers below 2^53 in magnitude); and
    strings that, after leading white space and an optional sign,
    start with decimal digits worth less than 2^53 and not followed by a
    fraction or an exponent (nor led by [0x]), or do not start with a
    digit or a dot at all ([NaN]).  Other inputs are outside what this
    instance is meant for. *)

Module Decimal.

Definition digit (c : ascii) : option Z :=
  let n := nat_of_ascii c in
  if ((48 <=? n) && (n <=? 57))%nat then Some (Z.of_nat n - 48)%Z else None.

Fixpoint digits (s : string) (acc : option Z) : option Z :=
  match s with
  | EmptyString => acc
  | String c t =>
      match digit c with
      | Some d =>
          digits t (Some (10 * match acc with Some a => a | None => 0 end + d)%Z)
      | None => acc
      end
  end.

Definition whole (z : Z) : JS.number :=
  SF2Prim
    match z with
    | Z0 => S754_zero false
    | Zpos m => S754_finite false m 0
    | Zneg m => S754_finite true m 0
    end.

Definition of_string (s : string) : JS.number :=
  let signed :=
    match JS.trimStart s with
    | String "-" t => option_map Z.opp (digits t None)
    | String "+" t => digits t None
    | t => digits t None
    end in
  match signed with
  | Some z => whole z
  | None => nan
  end.

Definition parse (v : JS.value) : JS.number :=
  match v with
  | JS.num n => if is_zero n then zero else n
  | JS.str s => of_string s
  | _ => nan
  end.

#[export] Instance globals : JS.Globals :=
  {| JS.parseFloat := parse; JS.parseInt := parse |}.

End Decimal.

(** ** The Express application in front of the routes

    [app.use(express.json())] is installed before every route: it reads
    the JSON payload of a request, on any method and path, and hands the
    parsed body to the route.  A payload that does not parse is an error
    with status 400; no error handler is registered, so Express answers
    with its own error page under that status and no route runs. *)

Module Express.


(** What the caller gets: the answer of a route, or the error page of
    Express with the status of the error. *)
Inductive reply : Type :=
| answer (r : Gateway.response)
| error_page (statusCode : nat).

Definition status (r : reply) : nat :=
  match r with
  | answer r => Gateway.status r
  | error_page statusCode => statusCode
  end.


End Express.

(** ** Names for two answers the properties mention *)

(** The answer of the required-fields check of [CreateOrder]. *)
Definition fields_required : OrderResponse.t :=
  {| OrderResponse.success := false;
     OrderResponse.message :=
       "User ID, Product Name, Amount and Quantity are required";
     OrderResponse.order := None |}.

(** The answers the gateway builds itself. *)
Definition internal_server_error (error : Grpc.ServiceError) : Gateway.response :=
  {| Gateway.status := 500;
     Gateway.body :=
       Gateway.of_ErrorBody
         {| ErrorBody.success := false;
            ErrorBody.message := "Internal server error";
            ErrorBody.error := Grpc.message error |} |}.

Definition valid_user_id_required : Gateway.response :=
  {| Gateway.status := 400;
     Gateway.body :=
       Gateway.of_UserResponse
         {| UserResponse.success := false;
            UserResponse.message := "Valid user ID is required";
            UserResponse.user := None |} |}.

Definition user_not_found : Gateway.response :=
  {| Gateway.status := 404;
     Gateway.body :=
       Gateway.of_MessageBody
         {| MessageBody.success := false;
            MessageBody.message := "User not found" |} |}.

(** ** Predicates on route handlers *)

(** Wherever the handler issues a call, a transport error of that call is
    answered with [internal_server_error]. *)
Fixpoint transport_errors_answered_500 (h : Gateway.handler) : Prop :=
  match h with
  | Gateway.res _ => True
  | Gateway.call c callback =>
      (forall e, callback (Grpc.error e) = Gateway.res (internal_server_error e))
      /\ (forall response, transport_errors_answered_500 (callback (Grpc.ok response)))
  | Gateway.await_Promise_all c1 c2 k =>
      (forall e, k (Grpc.error e) = Gateway.res (internal_server_error e))
      /\ (forall responses, transport_errors_answered_500 (k (Grpc.ok responses)))
  end.


(** The error of a channel that does not deliver. *)
Definition fault (l : Grpc.link) : option Grpc.ServiceError :=
  match l with
  | Grpc.up => None
  | Grpc.request_lost e | Grpc.response_lost e => Some e
  end.

(** The record [CreateOrder] builds from a request that passed its
    check. *)
Definition order_of (entropy : Entropy) (request : CreateOrderRequest.t) : Order.t :=
  {| Order.id := uuid.v4 (rnds entropy);
     Order.user_id := CreateOrderRequest.user_id request;
     Order.product_name := CreateOrderRequest.product_name request;
     Order.amount := CreateOrderRequest.amount request;
     Order.quantity := CreateOrderRequest.quantity request;
     Order.status := "pending";
     Order.created_at := now entropy |}.

(** ** Invariants of the two stores *)

(** No identifier is taken twice, and every user sits under its own
    identifier, which is not empty, with a name and an address that are
    not empty either. *)
Definition users_well_keyed (us : UserService.users) : Prop :=
  NoDup (JS.keys us)
  /\ forall k user, In (k, user) us ->
       User.id user = k /\ k <> "" /\ User.name user <> ""
       /\ User.email user <> "".

(** No identifier is taken twice, and every order sits under its own
    identifier, is pending, holds fields that pass the required-fields
    check, and belongs to a user of the user store [us]. *)
Definition orders_well_formed (us : UserService.users) (os : OrderService.orders)
  : Prop :=
  NoDup (JS.keys os)
  /\ forall k order, In (k, order) os ->
       Order.id order = k /\ k <> ""
       /\ Order.status order = "pending"
       /\ Order.product_name order <> ""
       /\ JS.falsy_number (Order.amount order) = false
       /\ Order.quantity order <> 0%Z
       /\ Order.user_id order <> ""
       /\ JS.get us (Order.user_id order) <> None.

Definition consistent (w : System.World) : Prop :=
  users_well_keyed (System.users w)
  /\ orders_well_formed (System.users w) (System.orders w).

(** The world the services start in: [new Map()], twice. *)
Definition boot : System.World :=
  {| System.users := []; System.orders := [] |}.

(** A run of the system: external requests, one after the other, each
    under the environment it meets. *)
Fixpoint handle_all {globals : JS.Globals}
  (rs : list (System.Env * Gateway.request)) (w : System.World) : System.World :=
  match rs with
  | [] => w
  | (env, req) :: rs' => handle_all rs' (snd (System.handle env req w))
  end.

(** A string none of whose characters [trim] would remove. *)
Fixpoint no_white_space (s : string) : Prop :=
  match s with
  | EmptyString => True
  | String c t => JS.isWhiteSpace c = false /\ no_white_space t
  end.

(** The routes registered with [app.get]. *)
Definition is_get (req : Gateway.request) : bool :=
  match req with
  | Gateway.POST_api_users _ | Gateway.POST_api_orders _ => false
  | _ => true
  end.

(** ** Sample data for the examples *)

Module Sample.

Definition entropy : Entropy :=
  {| rnds := [1; 2; 3; 4; 5; 6; 7; 8; 9; 10; 11; 12; 13; 14; 15; 16]%Z;
     now := "2024-01-01T00:00:00.000Z" |}.

Definition unavailable : Grpc.ServiceError :=
  {| Grpc.message := "14 UNAVAILABLE: No connection established" |}.

Definition alex : User.t :=
  {| User.id := "u1";
     User.name := "Alex";
     User.email := "alex@example.com";
     User.created_at := "2023-12-31T00:00:00.000Z" |}.

(** An order for a user nobody created. *)
Definition ghost_order : CreateOrderRequest.t :=
  {| CreateOrderRequest.user_id := "ghost";
     CreateOrderRequest.product_name := "Widget";
     CreateOrderRequest.amount := 9.5%float;
     CreateOrderRequest.quantity := 2 |}.

(** One user, [alex], and one order of theirs, stored under the
    identifier that [entropy] gives. *)
Definition one_order : System.World :=
  {| System.users := [("u1", alex)];
     System.orders :=
       [("01020304-0506-4708-890a-0b0c0d0e0f10",
         {| Order.id := "01020304-0506-4708-890a-0b0c0d0e0f10";
            Order.user_id := "u1";
            Order.product_name := "Gadget";
            Order.amount := 3%float;
            Order.quantity := 1;
            Order.status := "pending";
            Order.created_at := "2023-12-31T12:00:00.000Z" |})] |}.

(** No user, no order. *)
Definition empty : System.World :=
  {| System.users := []; System.orders := [] |}.

(** One user, [alex], and no order yet. *)
Definition one_user : System.World :=
  {| System.users := [("u1", alex)]; System.orders := [] |}.

(** Every channel delivers. *)
Definition calm : System.Env :=
  {| System.gateway_user := Grpc.up;
     System.gateway_order := Grpc.up;
     System.order_user := Grpc.up;
     System.user_entropy := entropy;
     System.order_entropy := entropy;
     System.gateway_clock := "2024-01-01T00:00:01.000Z";
     System.second_rejects_first := false |}.

(** The order service cannot be reached from the gateway. *)
Definition order_service_down : System.Env :=
  {| System.gateway_user := Grpc.up;
     System.gateway_order := Grpc.request_lost unavailable;
     System.order_user := Grpc.up;
     System.user_entropy := entropy;
     System.order_entropy := entropy;
     System.gateway_clock := "2024-01-01T00:00:01.000Z";
     System.second_rejects_first := false |}.

(** The user service cannot be reached from the gateway. *)
Definition user_service_down : System.Env :=
  {| System.gateway_user := Grpc.request_lost unavailable;
     System.gateway_order := Grpc.up;
     System.order_user := Grpc.up;
     System.user_entropy := entropy;
     System.order_entropy := entropy;
     System.gateway_clock := "2024-01-01T00:00:01.000Z";
     System.second_rejects_first := false |}.

(** The order service cannot reach the user service. *)
Definition orders_cannot_verify : System.Env :=
  {| System.gateway_user := Grpc.up;
     System.gateway_order := Grpc.up;
     System.order_user := Grpc.request_lost unavailable;
     System.user_entropy := entropy;
     System.order_entropy := entropy;
     System.gateway_clock := "2024-01-01T00:00:01.000Z";
     System.second_rejects_first := false |}.


End Sample.

(** * Properties *)

(** ** Truthiness, [Map] and identifiers *)

Lemma falsy_string_iff (s : string) : JS.falsy_string s = true <-> s = "".
Proof. unfold JS.falsy_string. apply String.eqb_eq. Qed.

Lemma truthy_string (s : string) : s <> "" -> JS.falsy_string s = false.
Proof. unfold JS.falsy_string. apply String.eqb_neq. Qed.

Lemma falsy_int32_iff (n : Z) : OrderService.falsy_int32 n = true <-> n = 0%Z.
Proof. unfold OrderService.falsy_int32. apply Z.eqb_eq. Qed.



Section MapFacts.

Variable V : Type.
Implicit Types (m : JS.Map V) (k : string) (v : V).

Lemma get_set_same m k v : JS.get (JS.set m k v) k = Some v.
Proof.
  induction m as [| [k0 v0] m IH]; cbn.
  - now rewrite String.eqb_refl.
  - destruct (k0 =? k) eqn:E; cbn; now rewrite E.
Qed.

Lemma get_set_other m k k' v : k <> k' -> JS.get (JS.set m k v) k' = JS.get m k'.
Proof.
  intros N. induction m as [| [k0 v0] m IH]; cbn.
  - apply String.eqb_neq in N. now rewrite N.
  - destruct (k0 =? k) eqn:E; cbn.
    + apply String.eqb_eq in E. subst k0.
      apply String.eqb_neq in N. now rewrite N.
    + now rewrite IH.
Qed.

Lemma set_fresh m k v : JS.get m k = None -> JS.set m k v = (m ++ [(k, v)])%list.
Proof.
  induction m as [| [k0 v0] m IH]; cbn; [reflexivity |].
  destruct (k0 =? k); [discriminate |].
  intros H. now rewrite IH.
Qed.

Lemma size_set_fresh m k v :
  JS.get m k = None -> JS.size (JS.set m k v) = S (JS.size m).
Proof.
  intros H. rewrite set_fresh by exact H. unfold JS.size.
  rewrite length_app. cbn. lia.
Qed.

Lemma size_set_present m k v v0 :
  JS.get m k = Some v0 -> JS.size (JS.set m k v) = JS.size m.
Proof.
  induction m as [| [k1 v1] m IH]; cbn; [discriminate |].
  destruct (k1 =? k); cbn; [reflexivity |].
  intros H. unfold JS.size in IH. now rewrite IH.
Qed.

End MapFacts.

Lemma v4_not_empty (rnds : list Z) : uuid.v4 rnds <> "".
Proof. unfold uuid.v4, uuid.byteToHex. cbn [String.append]. discriminate. Qed.

Lemma v4_truthy (rnds : list Z) : JS.falsy_string (uuid.v4 rnds) = false.
Proof. apply truthy_string, v4_not_empty. Qed.

(** ** The user service *)

(** C5. For every non-empty name and address, [CreateUser] succeeds with
    a record that carries them, and [GetUser] with the identifier of that
    record then answers with the very same record: identifier, name,
    address and creation time. *)
Theorem CreateUser_then_GetUser
  (entropy : Entropy) (request : CreateUserRequest.t) (store : UserService.users) :
  CreateUserRequest.name request <> "" ->
  CreateUserRequest.email request <> "" ->
  exists (user : User.t) (store' : UserService.users),
    UserService.CreateUser entropy request store =
      ({| UserResponse.success := true;
          UserResponse.message := "User created successfully";
          UserResponse.user := Some user |}, store')
    /\ User.name user = CreateUserRequest.name request
    /\ User.email user = CreateUserRequest.email request
    /\ UserService.GetUser {| GetUserRequest.user_id := User.id user |} store' =
      ({| UserResponse.success := true;
          UserResponse.message := "User found";
          UserResponse.user := Some user |}, store').
Proof.
  intros Hname Hemail.
  unfold UserService.CreateUser.
  rewrite (truthy_string Hname), (truthy_string Hemail). cbn [orb].
  do 2 eexists. split; [reflexivity |]. split; [reflexivity |].
  split; [reflexivity |].
  unfold UserService.GetUser. cbn [GetUserRequest.user_id User.id].
  rewrite v4_truthy. unfold bind, Map_get.
  now rewrite get_set_same.
Qed.

Lemma CreateUser_then_GetUser_witness :
  exists (user : User.t) (store' : UserService.users),
    UserService.CreateUser Sample.entropy
      {| CreateUserRequest.name := "Alex";
         CreateUserRequest.email := "alex@example.com" |} [] =
      ({| UserResponse.success := true;
          UserResponse.message := "User created successfully";
          UserResponse.user := Some user |}, store')
    /\ User.name user = "Alex"
    /\ User.email user = "alex@example.com"
    /\ UserService.GetUser {| GetUserRequest.user_id := User.id user |} store' =
      ({| UserResponse.success := true;
          UserResponse.message := "User found";
          UserResponse.user := Some user |}, store').
Proof.
  apply (@CreateUser_then_GetUser Sample.entropy
           {| CreateUserRequest.name := "Alex";
              CreateUserRequest.email := "alex@example.com" |} []);
    cbn; discriminate.
Defined.

(** ** The order service *)

Lemma in_orders_ret (A : Type) (a : A) (w : System.World) :
  System.in_orders (ret a) w = (a, w).
Proof. destruct w. reflexivity. Qed.

Lemma GetUser_keeps_store (request : GetUserRequest.t) (store : UserService.users) :
  snd (UserService.GetUser request store) = store.
Proof.
  unfold UserService.GetUser.
  destruct (JS.falsy_string _); [reflexivity |].
  unfold bind, Map_get. now destruct (JS.get _ _).
Qed.

Lemma GetUser_present (request : GetUserRequest.t) (store : UserService.users) (user : User.t) :
  GetUserRequest.user_id request <> "" ->
  JS.get store (GetUserRequest.user_id request) = Some user ->
  UserService.GetUser request store =
    ({| UserResponse.success := true;
        UserResponse.message := "User found";
        UserResponse.user := Some user |}, store).
Proof.
  intros Hid Hget. unfold UserService.GetUser.
  rewrite (truthy_string Hid). unfold bind, Map_get. now rewrite Hget.
Qed.

Lemma GetUser_absent (request : GetUserRequest.t) (store : UserService.users) :
  JS.get store (GetUserRequest.user_id request) = None ->
  UserResponse.success (fst (UserService.GetUser request store)) = false
  /\ UserResponse.user (fst (UserService.GetUser request store)) = None.
Proof.
  intros Hget. unfold UserService.GetUser.
  destruct (JS.falsy_string _); [now split |].
  unfold bind, Map_get. now rewrite Hget.
Qed.

(** The awaited call leaves both stores as they are; the handler goes on
    with the user service's answer, or with the error of the channel. *)
Lemma run_task_await (A : Type) (link : Grpc.link) (request : GetUserRequest.t)
  (k : Grpc.outcome UserResponse.t -> OrderService.task A) (w : System.World) :
  System.run_task link (OrderService.userClient_GetUser request k) w =
    match link with
    | Grpc.up =>
        System.run_task link
          (k (Grpc.ok (fst (UserService.GetUser request (System.users w))))) w
    | Grpc.request_lost e | Grpc.response_lost e =>
        System.run_task link (k (Grpc.error e)) w
    end.
Proof.
  cbn [System.run_task]. unfold bind, Grpc.unary, bind, ret, System.in_users.
  pose proof (GetUser_keeps_store request (System.users w)) as Hkeep.
  destruct link as [| e | e]; cbv beta;
    destruct (UserService.GetUser request (System.users w)) as [a us'];
    cbn in Hkeep; subst us'; destruct w; reflexivity.
Qed.

(** C2, as the code has it.  When the four fields are non-empty, the
    user is in the user store and the call to the user service goes
    through, [CreateOrder] answers [success: true] with an order whose
    status is [pending] and whose owner is the given user, and puts that
    order in the order store under the identifier [uuidv4] gave.  The
    store then holds exactly one more record if no stored order had that
    identifier; if one had, it is replaced and the size stays. *)
Theorem CreateOrder_existing_user
  (entropy : Entropy) (request : CreateOrderRequest.t)
  (w : System.World) (user : User.t) :
  CreateOrderRequest.user_id request <> "" ->
  CreateOrderRequest.product_name request <> "" ->
  JS.falsy_number (CreateOrderRequest.amount request) = false ->
  CreateOrderRequest.quantity request <> 0%Z ->
  JS.get (System.users w) (CreateOrderRequest.user_id request) = Some user ->
  exists (order : Order.t) (w' : System.World),
    System.run_task Grpc.up (OrderService.CreateOrder entropy request) w =
      ({| OrderResponse.success := true;
          OrderResponse.message := "Order created successfully";
          OrderResponse.order := Some order |}, w')
    /\ Order.id order = uuid.v4 (rnds entropy)
    /\ Order.status order = "pending"
    /\ Order.user_id order = CreateOrderRequest.user_id request
    /\ JS.get (System.orders w') (Order.id order) = Some order
    /\ System.users w' = System.users w
    /\ (JS.get (System.orders w) (uuid.v4 (rnds entropy)) = None ->
        JS.size (System.orders w') = S (JS.size (System.orders w)))
    /\ (JS.get (System.orders w) (uuid.v4 (rnds entropy)) <> None ->
        JS.size (System.orders w') = JS.size (System.orders w)).
Proof.
  intros Hid Hproduct Hamount Hquantity Huser.
  unfold OrderService.CreateOrder.
  rewrite (truthy_string Hid), (truthy_string Hproduct), Hamount.
  apply Z.eqb_neq in Hquantity. unfold OrderService.falsy_int32.
  rewrite Hquantity. cbn [orb].
  unfold OrderService.verifyUser. cbn [System.run_task].
  unfold bind at 1. unfold Grpc.unary, bind at 1, System.in_users.
  rewrite (@GetUser_present {| GetUserRequest.user_id := _ |} _ user Hid Huser).
  cbn.
  do 2 eexists. split; [reflexivity |]. cbn.
  do 3 (split; [reflexivity |]).
  split; [apply get_set_same |]. split; [reflexivity |]. split.
  - intros Hfresh. now apply size_set_fresh.
  - intros Htaken.
    destruct (JS.get (System.orders w) (uuid.v4 (rnds entropy))) as [old |] eqn:E;
      [| contradiction].
    now apply size_set_present with (v0 := old).
Qed.

Lemma CreateOrder_existing_user_witness :
  exists (order : Order.t) (w' : System.World),
    System.run_task Grpc.up
      (OrderService.CreateOrder Sample.entropy
         {| CreateOrderRequest.user_id := "u1";
            CreateOrderRequest.product_name := "Widget";
            CreateOrderRequest.amount := 9.5%float;
            CreateOrderRequest.quantity := 2 |}) Sample.one_user =
      ({| OrderResponse.success := true;
          OrderResponse.message := "Order created successfully";
          OrderResponse.order := Some order |}, w')
    /\ Order.status order = "pending"
    /\ Order.user_id order = "u1"
    /\ JS.size (System.orders w') = S (JS.size (System.orders Sample.one_user)).
Proof.
  destruct (@CreateOrder_existing_user Sample.entropy
              {| CreateOrderRequest.user_id := "u1";
                 CreateOrderRequest.product_name := "Widget";
                 CreateOrderRequest.amount := 9.5%float;
                 CreateOrderRequest.quantity := 2 |} Sample.one_user Sample.alex)
    as (order & w' & Hrun & _ & Hstatus & Howner & _ & _ & Hfresh & _);
    try (cbn; solve [discriminate | reflexivity]).
  exists order, w'. repeat split; try assumption.
  apply Hfresh. reflexivity.
Defined.

(** C2 as it was stated fails: when [uuidv4] gives the identifier of an
    order that is already stored, [CreateOrder] for an existing user with
    non-empty fields reports success and the order store is no larger
    than before: the stored order has been replaced. *)
Lemma CreateOrder_on_a_taken_identifier :
  let request :=
    {| CreateOrderRequest.user_id := "u1";
       CreateOrderRequest.product_name := "Widget";
       CreateOrderRequest.amount := 9.5%float;
       CreateOrderRequest.quantity := 2 |} in
  let r :=
    System.run_task Grpc.up (OrderService.CreateOrder Sample.entropy request)
      Sample.one_order in
  JS.get (System.users Sample.one_order) "u1" = Some Sample.alex
  /\ OrderResponse.success (fst r) = true
  /\ JS.size (System.orders Sample.one_order) = 1
  /\ JS.size (System.orders (snd r)) = 1
  /\ JS.size (System.orders (snd r)) <> S (JS.size (System.orders Sample.one_order))
  /\ JS.values (System.orders (snd r)) = [order_of Sample.entropy request].
Proof. cbn. repeat split. discriminate. Qed.

(** What [CreateOrder] does once the four fields have passed the check. *)
Lemma CreateOrder_checked (entropy : Entropy) (request : CreateOrderRequest.t) :
  CreateOrderRequest.user_id request <> "" ->
  CreateOrderRequest.product_name request <> "" ->
  JS.falsy_number (CreateOrderRequest.amount request) = false ->
  CreateOrderRequest.quantity request <> 0%Z ->
  exists k,
    OrderService.CreateOrder entropy request =
      OrderService.userClient_GetUser
        {| GetUserRequest.user_id := CreateOrderRequest.user_id request |} k.
Proof.
  intros Hid Hproduct Hamount Hquantity.
  unfold OrderService.CreateOrder.
  rewrite (truthy_string Hid), (truthy_string Hproduct), Hamount.
  apply Z.eqb_neq in Hquantity. unfold OrderService.falsy_int32.
  rewrite Hquantity. cbn [orb]. unfold OrderService.verifyUser.
  eexists. reflexivity.
Qed.

Lemma CreateOrder_check_fails (entropy : Entropy) (request : CreateOrderRequest.t) :
  CreateOrderRequest.user_id request = ""
  \/ CreateOrderRequest.product_name request = ""
  \/ JS.falsy_number (CreateOrderRequest.amount request) = true
  \/ CreateOrderRequest.quantity request = 0%Z ->
  OrderService.CreateOrder entropy request =
    OrderService.callback (ret fields_required).
Proof.
  intros H. unfold OrderService.CreateOrder.
  assert (E : JS.falsy_string (CreateOrderRequest.user_id request)
              || JS.falsy_string (CreateOrderRequest.product_name request)
              || JS.falsy_number (CreateOrderRequest.amount request)
              || OrderService.falsy_int32 (CreateOrderRequest.quantity request)
              = true).
  { rewrite !orb_true_iff, !falsy_string_iff, falsy_int32_iff. tauto. }
  now rewrite E.
Qed.

(** C1, as the code has it.  When the user is not in the user store,
    [CreateOrder] answers [success: false] with no order, and neither
    store changes, whatever the fields hold and whatever the channel to the
    user service does.  When the four fields pass the required-fields
    check, the handler starts with the call to [GetUser] and comes to the
    order store only in the callback of that call, and the message is
    "Invalid User ID" if the call went through. *)
Theorem CreateOrder_absent_user
  (entropy : Entropy) (request : CreateOrderRequest.t)
  (link : Grpc.link) (w : System.World) :
  JS.get (System.users w) (CreateOrderRequest.user_id request) = None ->
  exists response : OrderResponse.t,
    System.run_task link (OrderService.CreateOrder entropy request) w =
      (response, w)
    /\ OrderResponse.success response = false
    /\ OrderResponse.order response = None
    /\ (CreateOrderRequest.user_id request <> "" ->
        CreateOrderRequest.product_name request <> "" ->
        JS.falsy_number (CreateOrderRequest.amount request) = false ->
        CreateOrderRequest.quantity request <> 0%Z ->
        (exists k,
           OrderService.CreateOrder entropy request =
             OrderService.userClient_GetUser
               {| GetUserRequest.user_id :=
                    CreateOrderRequest.user_id request |} k)
        /\ (link = Grpc.up ->
            OrderResponse.message response = "Invalid User ID")).
Proof.
  intros Habsent.
  destruct (JS.falsy_string (CreateOrderRequest.user_id request)
            || JS.falsy_string (CreateOrderRequest.product_name request)
            || JS.falsy_number (CreateOrderRequest.amount request)
            || OrderService.falsy_int32 (CreateOrderRequest.quantity request))
    eqn:Echeck.
  - (* a field is empty or zero *)
    exists fields_required. unfold OrderService.CreateOrder. rewrite Echeck.
    cbn [System.run_task]. rewrite in_orders_ret.
    do 3 (split; [reflexivity |]).
    intros Hid Hproduct Hamount Hquantity. exfalso.
    rewrite (truthy_string Hid), (truthy_string Hproduct), Hamount in Echeck.
    apply falsy_int32_iff in Echeck. contradiction.
  - (* the four fields pass: the user service is asked *)
    unfold OrderService.CreateOrder. rewrite Echeck.
    unfold OrderService.verifyUser. rewrite run_task_await.
    pose proof (GetUser_absent
                  {| GetUserRequest.user_id := CreateOrderRequest.user_id request |}
                  (System.users w) Habsent) as [_ Huser].
    destruct link as [| e | e]; [rewrite Huser | |];
      cbn [System.run_task]; rewrite in_orders_ret;
      eexists; do 3 (split; [reflexivity |]); intros _ _ _ _;
      (split; [eexists; reflexivity | intros; solve [reflexivity | discriminate]]).
Qed.

Lemma CreateOrder_absent_user_witness :
  exists response : OrderResponse.t,
    System.run_task Grpc.up
      (OrderService.CreateOrder Sample.entropy Sample.ghost_order) Sample.empty =
      (response, Sample.empty)
    /\ OrderResponse.success response = false
    /\ OrderResponse.order response = None
    /\ OrderResponse.message response = "Invalid User ID".
Proof.
  destruct (@CreateOrder_absent_user Sample.entropy Sample.ghost_order
              Grpc.up Sample.empty eq_refl)
    as (response & Hrun & Hsuccess & Horder & Hmessage).
  exists response. repeat split; try assumption.
  apply Hmessage; cbn; solve [discriminate | reflexivity].
Defined.

(** C1 as it was stated fails: with a user that is not in the store, the
    message is the one of the required-fields check when a field is empty
    or zero (here the amount), and the message of the transport error when
    the call to the user service fails. *)
Lemma CreateOrder_absent_user_other_messages :
  let zero_amount :=
    fst (System.run_task Grpc.up
           (OrderService.CreateOrder Sample.entropy
              {| CreateOrderRequest.user_id := "ghost";
                 CreateOrderRequest.product_name := "Widget";
                 CreateOrderRequest.amount := 0%float;
                 CreateOrderRequest.quantity := 1 |}) Sample.empty) in
  let user_service_down :=
    fst (System.run_task (Grpc.request_lost Sample.unavailable)
           (OrderService.CreateOrder Sample.entropy Sample.ghost_order)
           Sample.empty) in
  JS.get (System.users Sample.empty) "ghost" = None
  /\ OrderResponse.message zero_amount =
       "User ID, Product Name, Amount and Quantity are required"
  /\ OrderResponse.message zero_amount <> "Invalid User ID"
  /\ OrderResponse.message user_service_down =
       "14 UNAVAILABLE: No connection established"
  /\ OrderResponse.message user_service_down <> "Invalid User ID".
Proof. cbn. repeat split; discriminate. Qed.

(** C3, as the code has it.  [CreateOrder] answers with the
    required-fields rejection, without calling the user service and
    without touching a store, whenever the user identifier or the product
    name is empty, the amount is zero or NaN, or the quantity is zero;
    a missing field arrives as one of these defaults.  Every other
    request, negative amounts and quantities included, passes the check
    and goes on to the call to the user service. *)
Theorem CreateOrder_required_fields
  (entropy : Entropy) (request : CreateOrderRequest.t) :
  (CreateOrderRequest.user_id request = ""
   \/ CreateOrderRequest.product_name request = ""
   \/ is_nan (CreateOrderRequest.amount request) = true
   \/ is_zero (CreateOrderRequest.amount request) = true
   \/ CreateOrderRequest.quantity request = 0%Z ->
   OrderService.CreateOrder entropy request =
     OrderService.callback (ret fields_required)
   /\ forall (link : Grpc.link) (w : System.World),
        System.run_task link (OrderService.CreateOrder entropy request) w =
          (fields_required, w))
  /\ (CreateOrderRequest.user_id request <> "" ->
      CreateOrderRequest.product_name request <> "" ->
      is_nan (CreateOrderRequest.amount request) = false ->
      is_zero (CreateOrderRequest.amount request) = false ->
      CreateOrderRequest.quantity request <> 0%Z ->
      exists k,
        OrderService.CreateOrder entropy request =
          OrderService.userClient_GetUser
            {| GetUserRequest.user_id := CreateOrderRequest.user_id request |} k).
Proof.
  split.
  - intros H.
    assert (E : OrderService.CreateOrder entropy request =
                OrderService.callback (ret fields_required)).
    { apply CreateOrder_check_fails. unfold JS.falsy_number.
      rewrite orb_true_iff. tauto. }
    split; [exact E |].
    intros link w. rewrite E. cbn [System.run_task]. apply in_orders_ret.
  - intros Hid Hproduct Hnan Hzero Hquantity.
    apply CreateOrder_checked; try assumption.
    unfold JS.falsy_number. now rewrite Hnan, Hzero.
Qed.

Lemma CreateOrder_required_fields_witness :
  OrderService.CreateOrder Sample.entropy
    {| CreateOrderRequest.user_id := "u1";
       CreateOrderRequest.product_name := "Widget";
       CreateOrderRequest.amount := 9.5%float;
       CreateOrderRequest.quantity := 0 |} =
    OrderService.callback (ret fields_required)
  /\ exists k,
       OrderService.CreateOrder Sample.entropy
         {| CreateOrderRequest.user_id := "u1";
            CreateOrderRequest.product_name := "Widget";
            CreateOrderRequest.amount := (-5)%float;
            CreateOrderRequest.quantity := (-3) |} =
         OrderService.userClient_GetUser {| GetUserRequest.user_id := "u1" |} k.
Proof.
  split.
  - apply (proj1 (@CreateOrder_required_fields Sample.entropy
                    {| CreateOrderRequest.user_id := "u1";
                       CreateOrderRequest.product_name := "Widget";
                       CreateOrderRequest.amount := 9.5%float;
                       CreateOrderRequest.quantity := 0 |})).
    cbn. tauto.
  - apply (proj2 (@CreateOrder_required_fields Sample.entropy
                    {| CreateOrderRequest.user_id := "u1";
                       CreateOrderRequest.product_name := "Widget";
                       CreateOrderRequest.amount := (-5)%float;
                       CreateOrderRequest.quantity := (-3) |}));
      cbn; solve [discriminate | reflexivity].
Defined.

(** C3 as it was stated fails: an order with a negative amount, and one
    with a negative quantity, for a user that exists, is accepted and
    stored. *)
Lemma CreateOrder_accepts_negative :
  (let r := System.run_task Grpc.up
              (OrderService.CreateOrder Sample.entropy
                 {| CreateOrderRequest.user_id := "u1";
                    CreateOrderRequest.product_name := "Widget";
                    CreateOrderRequest.amount := (-5)%float;
                    CreateOrderRequest.quantity := 2 |}) Sample.one_user in
   OrderResponse.success (fst r) = true
   /\ JS.size (System.orders (snd r)) = 1)
  /\ (let r := System.run_task Grpc.up
                 (OrderService.CreateOrder Sample.entropy
                    {| CreateOrderRequest.user_id := "u1";
                       CreateOrderRequest.product_name := "Widget";
                       CreateOrderRequest.amount := 9.5%float;
                       CreateOrderRequest.quantity := (-3) |}) Sample.one_user in
      OrderResponse.success (fst r) = true
      /\ JS.size (System.orders (snd r)) = 1).
Proof. repeat split. Qed.

(** ** The read operations *)

Lemma in_users_keeps (A : Type) (m : M UserService.users A) (w : System.World) :
  snd (m (System.users w)) = System.users w -> snd (System.in_users m w) = w.
Proof.
  unfold System.in_users. destruct (m (System.users w)) as [a us]. cbn.
  intros ->. now destruct w.
Qed.

Lemma in_orders_keeps (A : Type) (m : M OrderService.orders A) (w : System.World) :
  snd (m (System.orders w)) = System.orders w -> snd (System.in_orders m w) = w.
Proof.
  unfold System.in_orders. destruct (m (System.orders w)) as [a os]. cbn.
  intros ->. now destruct w.
Qed.

Lemma ListUsers_keeps_store (store : UserService.users) :
  snd (UserService.ListUsers store) = store.
Proof. reflexivity. Qed.

Lemma GetOrder_keeps_store (request : GetOrderRequest.t) (store : OrderService.orders) :
  snd (OrderService.GetOrder request store) = store.
Proof.
  unfold OrderService.GetOrder.
  destruct (JS.falsy_string _); [reflexivity |].
  unfold bind, Map_get. now destruct (JS.get _ _).
Qed.

Lemma GetOrdersByUser_keeps_store
  (request : GetOrdersByUserRequest.t) (store : OrderService.orders) :
  snd (OrderService.GetOrdersByUser request store) = store.
Proof.
  unfold OrderService.GetOrdersByUser.
  now destruct (JS.falsy_string _).
Qed.

Lemma read_only_keeps_world (env : System.Env) (A : Type) (c : Gateway.rpc A)
  (w : System.World) :
  System.read_only c = true -> snd (System.serve env c w) = w.
Proof.
  destruct c; cbn [System.read_only System.serve]; intros H; try discriminate.
  - apply in_users_keeps, GetUser_keeps_store.
  - apply in_users_keeps, ListUsers_keeps_store.
  - apply in_orders_keeps, GetOrder_keeps_store.
  - apply in_orders_keeps, GetOrdersByUser_keeps_store.
Qed.

(** C9. [GetUser], [GetOrder], [ListUsers] and [GetOrdersByUser] leave
    the user store and the order store as they found them: after any
    sequence of such calls, with any requests, the world is the one the
    sequence started in. *)
Theorem reads_leave_stores_unchanged
  (env : System.Env) (cs : list System.any_rpc) (w : System.World) :
  Forall (fun c => System.read_only (projT2 c) = true) cs ->
  System.serve_all env cs w = w.
Proof.
  induction 1 as [| [A c] cs Hc _ IH]; cbn [System.serve_all]; [reflexivity |].
  cbn [projT2] in Hc. now rewrite (read_only_keeps_world env c w Hc).
Qed.

Lemma reads_leave_stores_unchanged_witness :
  System.serve_all Sample.calm
    [existT _ _ (Gateway.userClient_GetUser {| GetUserRequest.user_id := "u1" |});
     existT _ _ Gateway.userClient_ListUsers;
     existT _ _ (Gateway.orderClient_GetOrder {| GetOrderRequest.order_id := "o1" |});
     existT _ _ (Gateway.orderClient_GetOrdersByUser
                   {| GetOrdersByUserRequest.user_id := "u1" |});
     existT _ _ (Gateway.userClient_GetUser {| GetUserRequest.user_id := "u1" |})]
    Sample.one_user = Sample.one_user.
Proof.
  apply reads_leave_stores_unchanged.
  repeat constructor.
Defined.

(** ** The gateway *)

(** One call of a route: the callback runs on the response the service
    gave, or on the error of the channel; a response that is lost on the
    way back leaves the service's effect behind. *)
Lemma run_call (env : System.Env) (A : Type) (c : Gateway.rpc A)
  (callback : Grpc.outcome A -> Gateway.handler) (w : System.World) :
  System.run env (Gateway.call c callback) w =
    match System.channel env c with
    | Grpc.up =>
        System.run env (callback (Grpc.ok (fst (System.serve env c w))))
          (snd (System.serve env c w))
    | Grpc.request_lost e => System.run env (callback (Grpc.error e)) w
    | Grpc.response_lost e =>
        System.run env (callback (Grpc.error e)) (snd (System.serve env c w))
    end.
Proof.
  cbn [System.run]. unfold bind at 1. unfold System.perform, Grpc.unary.
  destruct (System.channel env c) as [| e | e]; unfold bind, ret;
    try reflexivity; now destruct (System.serve env c w).
Qed.

(** C6. A get-user request whose identifier is empty, is the text
    "undefined" or "null", or is blank once trimmed, is answered by the
    gateway itself with status 400 and [{success: false, message, user:
    null}]: the handler is that answer and no call, and running it leaves
    both stores alone whatever the channels do. *)
Theorem get_user_rejected_locally (userId : string) :
  userId = "" \/ userId = "undefined" \/ userId = "null" \/ JS.trim userId = "" ->
  Gateway.get_api_users_userId userId = Gateway.res valid_user_id_required
  /\ forall (globals : JS.Globals) (env : System.Env) (w : System.World),
       System.handle env (Gateway.GET_api_users_userId userId) w =
         (valid_user_id_required, w).
Proof.
  intros H.
  assert (E : Gateway.get_api_users_userId userId =
              Gateway.res valid_user_id_required).
  { unfold Gateway.get_api_users_userId.
    assert (C : JS.falsy_string userId || (userId =? "undefined")
                || (userId =? "null") || (JS.trim userId =? "") = true).
    { rewrite !orb_true_iff, falsy_string_iff, !String.eqb_eq. tauto. }
    now rewrite C. }
  split; [exact E |].
  intros globals env w. unfold System.handle. cbn [Gateway.app].
  now rewrite E.
Qed.

Lemma get_user_rejected_locally_witness :
  Gateway.get_api_users_userId "   " = Gateway.res valid_user_id_required
  /\ forall (globals : JS.Globals) (env : System.Env) (w : System.World),
       System.handle env (Gateway.GET_api_users_userId "   ") w =
         (valid_user_id_required, w).
Proof.
  apply (@get_user_rejected_locally "   ").
  right; right; right. reflexivity.
Defined.

(** C7. On every route, a transport error of an internal call, whichever
    client it came from, is answered with status 500 and
    [{success: false, message: "Internal server error", error: <the
    error's message>}]. *)
Theorem transport_errors_become_500
  (globals : JS.Globals) (timestamp : string) (req : Gateway.request) :
  transport_errors_answered_500 (Gateway.app timestamp req).
Proof.
  destruct req; cbn [Gateway.app];
    try (unfold Gateway.get_api_users_userId;
         destruct (_ || _)%bool);
    cbn; repeat split.
  intros [userResponse ordersResponse].
  now destruct (UserResponse.success userResponse).
Qed.

Lemma in_users_read (A : Type) (m : M UserService.users A) (w : System.World) :
  snd (m (System.users w)) = System.users w ->
  System.in_users m w = (fst (m (System.users w)), w).
Proof.
  unfold System.in_users. destruct (m (System.users w)) as [a us]. cbn.
  intros ->. now destruct w.
Qed.

Lemma in_orders_read (A : Type) (m : M OrderService.orders A) (w : System.World) :
  snd (m (System.orders w)) = System.orders w ->
  System.in_orders m w = (fst (m (System.orders w)), w).
Proof.
  unfold System.in_orders. destruct (m (System.orders w)) as [a os]. cbn.
  intros ->. now destruct w.
Qed.

(** The two calls of the profile route only read: each gives the answer
    of its service on the store as it is, or the error of its channel,
    and the join of [Promise.all] decides what the handler goes on with. *)
Lemma run_profile (env : System.Env) (userId : string)
  (k : Grpc.outcome (UserResponse.t * OrdersResponse.t) -> Gateway.handler)
  (w : System.World) :
  System.run env
    (Gateway.await_Promise_all
       (Gateway.userClient_GetUser {| GetUserRequest.user_id := userId |})
       (Gateway.orderClient_GetOrdersByUser
          {| GetOrdersByUserRequest.user_id := userId |}) k) w =
    System.run env
      (k (System.Promise_all (System.second_rejects_first env)
            match fault (System.gateway_user env) with
            | None =>
                Grpc.ok (fst (UserService.GetUser
                                {| GetUserRequest.user_id := userId |}
                                (System.users w)))
            | Some e => Grpc.error e
            end
            match fault (System.gateway_order env) with
            | None =>
                Grpc.ok (fst (OrderService.GetOrdersByUser
                                {| GetOrdersByUserRequest.user_id := userId |}
                                (System.orders w)))
            | Some e => Grpc.error e
            end)) w.
Proof.
  cbn [System.run]. unfold System.perform.
  cbn [System.channel System.serve].
  pose proof (in_users_read _ w
                (GetUser_keeps_store {| GetUserRequest.user_id := userId |}
                   (System.users w))) as Hu.
  pose proof (in_orders_read _ w
                (GetOrdersByUser_keeps_store
                   {| GetOrdersByUserRequest.user_id := userId |}
                   (System.orders w))) as Ho.
  unfold bind, Grpc.unary, bind, ret.
  destruct (System.gateway_user env) as [| e1 | e1],
           (System.gateway_order env) as [| e2 | e2];
    cbn [fault]; rewrite ?Hu, ?Ho; reflexivity.
Qed.

(** C4, as the code has it.  The profile route issues [GetUser] and
    [GetOrdersByUser] together, neither request depending on the other
    call, and goes on once [Promise.all] has both answers; an answer of
    the user service with [success: false] is then turned into status 404
    with [{success: false, message: "User not found"}] whatever the orders
    answer holds.  So a user that is not in the store gets that 404, with
    both stores left alone, provided both calls reach their service and
    come back. *)
Theorem profile_of_absent_user
  (globals : JS.Globals) (env : System.Env) (userId : string) (w : System.World) :
  JS.get (System.users w) userId = None ->
  System.gateway_user env = Grpc.up ->
  System.gateway_order env = Grpc.up ->
  System.handle env (Gateway.GET_api_users_userId_profile userId) w =
    (user_not_found, w)
  /\ exists k,
       Gateway.get_api_users_userId_profile userId =
         Gateway.await_Promise_all
           (Gateway.userClient_GetUser {| GetUserRequest.user_id := userId |})
           (Gateway.orderClient_GetOrdersByUser
              {| GetOrdersByUserRequest.user_id := userId |}) k
       /\ forall (userResponse : UserResponse.t) (ordersResponse : OrdersResponse.t),
            UserResponse.success userResponse = false ->
            k (Grpc.ok (userResponse, ordersResponse)) = Gateway.res user_not_found.
Proof.
  intros Habsent Huser Horder. split.
  - unfold System.handle. cbn [Gateway.app].
    unfold Gateway.get_api_users_userId_profile. rewrite run_profile.
    rewrite Huser, Horder. cbn [fault System.Promise_all].
    destruct (GetUser_absent {| GetUserRequest.user_id := userId |}
                (System.users w) Habsent) as [Hsuccess _].
    now rewrite Hsuccess.
  - eexists. split; [reflexivity |].
    intros userResponse ordersResponse Hsuccess. cbn. now rewrite Hsuccess.
Qed.

Lemma profile_of_absent_user_witness :
  @System.handle Decimal.globals Sample.calm
    (Gateway.GET_api_users_userId_profile "ghost") Sample.one_user =
    (user_not_found, Sample.one_user).
Proof.
  apply (@profile_of_absent_user Decimal.globals Sample.calm "ghost"
           Sample.one_user); reflexivity.
Defined.

(** C4 as it was stated fails: for a user that is not in the store, the
    answer is the 500 of a transport error, not the 404, when the orders
    call does not come back, and likewise when the user call does not. *)
Lemma profile_of_absent_user_transport_error :
  JS.get (System.users Sample.empty) "ghost" = None
  /\ fst (@System.handle Decimal.globals Sample.order_service_down
            (Gateway.GET_api_users_userId_profile "ghost") Sample.empty)
     = internal_server_error Sample.unavailable
  /\ fst (@System.handle Decimal.globals Sample.user_service_down
            (Gateway.GET_api_users_userId_profile "ghost") Sample.empty)
     = internal_server_error Sample.unavailable
  /\ internal_server_error Sample.unavailable <> user_not_found.
Proof. repeat split. discriminate. Qed.



(** What a route answers with, by the channel of its one call. *)
Lemma run_passes_through (env : System.Env) (A : Type)
  (to_json : A -> Gateway.json) (c : Gateway.rpc A)
  (callback : Grpc.outcome A -> Gateway.handler) (w : System.World) :
  (forall response, callback (Grpc.ok response) =
     Gateway.res {| Gateway.status := 200; Gateway.body := to_json response |}) ->
  (forall e, callback (Grpc.error e) = Gateway.res (internal_server_error e)) ->
  fst (System.run env (Gateway.call c callback) w) =
    match fault (System.channel env c) with
    | None => {| Gateway.status := 200;
                 Gateway.body := to_json (fst (System.serve env c w)) |}
    | Some e => internal_server_error e
    end.
Proof.
  intros Hok Herror. rewrite run_call.
  destruct (System.channel env c) as [| e | e]; cbn [fault];
    rewrite ?Hok, ?Herror; reflexivity.
Qed.

Ltac one_call :=
  match goal with
  | |- context [System.run ?env (Gateway.call ?c ?callback) ?w] =>
      rewrite (@run_passes_through env _ _ c callback w
                 (fun response => eq_refl) (fun e => eq_refl))
  end.

Ltac by_channel env :=
  cbn [System.channel] in *;
  destruct (System.gateway_user env) as [| ? | ?],
           (System.gateway_order env) as [| ? | ?];
  cbn [fault Gateway.status] in *;
  try discriminate;
  eauto 6.





(** ** The scenario of the specification, end to end

    Create a user, order a widget for them through the gateway with the
    amount and the quantity given as text ([parseFloat] reads the 12 of
    "12abc"), then read the profile: one order, pending, owned by the
    user. *)
Example scenario :
  let globals := Decimal.globals in
  let '(created, w1) :=
    System.handle Sample.calm
      (Gateway.POST_api_users
         {| PostUsersBody.name := Some "Alex";
            PostUsersBody.email := Some "alex@example.com" |}) Sample.empty in
  let U1 := "01020304-0506-4708-890a-0b0c0d0e0f10" in
  let '(ordered, w2) :=
    System.handle Sample.calm
      (Gateway.POST_api_orders
         {| PostOrdersBody.user_id := Some U1;
            PostOrdersBody.product_name := Some "Widget";
            PostOrdersBody.amount := JS.str "12abc";
            PostOrdersBody.quantity := JS.str "2" |}) w1 in
  let '(profile, w3) :=
    System.handle Sample.calm (Gateway.GET_api_users_userId_profile U1) w2 in
  JS.keys (System.users w1) = [U1]
  /\ Gateway.status ordered = 200
  /\ (exists order,
        Gateway.body ordered =
          Gateway.of_OrderResponse
            {| OrderResponse.success := true;
               OrderResponse.message := "Order created successfully";
               OrderResponse.order := Some order |}
        /\ Order.user_id order = U1
        /\ Order.status order = "pending"
        /\ Order.amount order = 12%float
        /\ Order.quantity order = 2%Z
        /\ exists user,
             profile =
               {| Gateway.status := 200;
                  Gateway.body :=
                    Gateway.of_ProfileBody
                      {| ProfileBody.success := true;
                         ProfileBody.message :=
                           "User profile retrieved successfully";
                         ProfileBody.data :=
                           {| ProfileData.user := Some user;
                              ProfileData.orders := [order];
                              ProfileData.order_count := 1 |} |} |})
  /\ w3 = w2.
Proof.
  vm_compute. repeat split. eexists. repeat split. eexists. reflexivity.
Qed.

(** A rejection by the user service reaches the caller with status 200;
    the same request with the user service out of reach gets the 500. *)
Example create_user_without_name :
  let globals := Decimal.globals in
  let nameless :=
    Gateway.POST_api_users
      {| PostUsersBody.name := None;
         PostUsersBody.email := Some "alex@example.com" |} in
  System.handle Sample.calm nameless Sample.empty =
    ({| Gateway.status := 200;
        Gateway.body :=
          Gateway.of_UserResponse
            {| UserResponse.success := false;
               UserResponse.message := "Name and email are required";
               UserResponse.user := None |} |}, Sample.empty)
  /\ System.handle Sample.user_service_down nameless Sample.empty =
       (internal_server_error Sample.unavailable, Sample.empty).
Proof. split; reflexivity. Qed.

(** An order for a user nobody created, through the gateway: the order
    service's "Invalid User ID" with status 200, and no order stored. *)
Example order_for_ghost :
  let globals := Decimal.globals in
  System.handle Sample.calm
    (Gateway.POST_api_orders
       {| PostOrdersBody.user_id := Some "nonexistent";
          PostOrdersBody.product_name := Some "Widget";
          PostOrdersBody.amount := JS.num 9.5%float;
          PostOrdersBody.quantity := JS.num 2%float |}) Sample.one_user =
    ({| Gateway.status := 200;
        Gateway.body :=
          Gateway.of_OrderResponse
            {| OrderResponse.success := false;
               OrderResponse.message := "Invalid User ID";
               OrderResponse.order := None |} |}, Sample.one_user).
Proof. reflexivity. Qed.

(** * Further properties of the handlers *)

(** ** More on [Map] *)

Section MapEntries.

Variable V : Type.
Implicit Types (m : JS.Map V) (k : string) (v : V).

Lemma get_None_keys m k : JS.get m k = None <-> ~ In k (JS.keys m).
Proof.
  induction m as [| [k0 v0] m IH]; cbn; [tauto |].
  destruct (k0 =? k) eqn:E.
  - apply String.eqb_eq in E. split; [discriminate | tauto].
  - apply String.eqb_neq in E. rewrite IH. tauto.
Qed.

Lemma get_Some_In m k v : JS.get m k = Some v -> In (k, v) m.
Proof.
  induction m as [| [k0 v0] m IH]; cbn; [discriminate |].
  destruct (k0 =? k) eqn:E.
  - apply String.eqb_eq in E. intros [= ->]. left. now subst.
  - auto.
Qed.

Lemma In_get m k v : NoDup (JS.keys m) -> In (k, v) m -> JS.get m k = Some v.
Proof.
  induction m as [| [k0 v0] m IH]; cbn; [tauto |].
  intros Hnd [[= -> ->] | Hin].
  - now rewrite String.eqb_refl.
  - inversion Hnd as [| ? ? Hnotin Hnd']; subst.
    destruct (k0 =? k) eqn:E; [| auto].
    apply String.eqb_eq in E. subst k0. exfalso. apply Hnotin.
    change k with (fst (k, v)). now apply in_map.
Qed.

Lemma In_set m k v k' v' :
  In (k', v') (JS.set m k v) -> (k' = k /\ v' = v) \/ In (k', v') m.
Proof.
  induction m as [| [k0 v0] m IH]; cbn.
  - intros [[= <- <-] | []]. now left.
  - destruct (k0 =? k) eqn:E.
    + apply String.eqb_eq in E. subst k0. cbn.
      intros [[= <- <-] | Hin]; [now left | right; now right].
    + cbn. intros [Heq | Hin]; [right; now left |].
      destruct (IH Hin) as [? | ?]; [now left | right; now right].
Qed.

Lemma keys_set_present m k v : JS.get m k <> None -> JS.keys (JS.set m k v) = JS.keys m.
Proof.
  unfold JS.keys. induction m as [| [k0 v0] m IH]; cbn; [congruence |].
  destruct (k0 =? k) eqn:E; cbn; [reflexivity |].
  intros H. now rewrite IH.
Qed.

Lemma NoDup_keys_set m k v : NoDup (JS.keys m) -> NoDup (JS.keys (JS.set m k v)).
Proof.
  intros Hnd. destruct (JS.get m k) eqn:E.
  - rewrite keys_set_present; [assumption | congruence].
  - rewrite set_fresh by exact E. unfold JS.keys. rewrite map_app. cbn.
    apply NoDup_app; [assumption | repeat constructor; intros [] | ].
    intros k0 Hin [<- | []]. now apply get_None_keys in E.
Qed.

Lemma get_set_keeps m k v k' : JS.get m k' <> None -> JS.get (JS.set m k v) k' <> None.
Proof.
  intros H. destruct (String.eqb_spec k k') as [-> | N].
  - rewrite get_set_same. discriminate.
  - now rewrite get_set_other.
Qed.

Lemma values_set_fresh m k v :
  JS.get m k = None -> JS.values (JS.set m k v) = (JS.values m ++ [v])%list.
Proof.
  intros H. rewrite set_fresh by exact H. unfold JS.values. now rewrite map_app.
Qed.

End MapEntries.

(** ** The user service, further *)

(** What [CreateUser] does to the store: nothing, or one [set] of a
    record with non-empty fields under the identifier just drawn. *)
Lemma CreateUser_effect (entropy : Entropy) (request : CreateUserRequest.t)
  (store : UserService.users) :
  (UserService.CreateUser entropy request store =
     ({| UserResponse.success := false;
         UserResponse.message := "Name and email are required";
         UserResponse.user := None |}, store)
   /\ (CreateUserRequest.name request = "" \/ CreateUserRequest.email request = ""))
  \/ (exists user,
        UserService.CreateUser entropy request store =
          ({| UserResponse.success := true;
              UserResponse.message := "User created successfully";
              UserResponse.user := Some user |},
            JS.set store (uuid.v4 (rnds entropy)) user)
        /\ User.id user = uuid.v4 (rnds entropy)
        /\ User.name user = CreateUserRequest.name request
        /\ User.email user = CreateUserRequest.email request
        /\ User.created_at user = now entropy
        /\ User.name user <> "" /\ User.email user <> "").
Proof.
  unfold UserService.CreateUser.
  destruct (JS.falsy_string (CreateUserRequest.name request)) eqn:En.
  { left. split; [reflexivity |]. left. now apply falsy_string_iff. }
  destruct (JS.falsy_string (CreateUserRequest.email request)) eqn:Ee.
  { left. split; [reflexivity |]. right. now apply falsy_string_iff. }
  right. eexists. split; [reflexivity |]. cbn.
  repeat split; intros H; apply falsy_string_iff in H; congruence.
Qed.

(** X1. [GetUser] answers "User found" with a user exactly when the
    identifier asked for is not empty and the store holds that user under
    it; an empty identifier gets "User ID is required", an identifier the
    store does not hold gets "User not found", both without a user; the
    store is the same afterwards. *)
Theorem GetUser_finds_what_is_stored
  (request : GetUserRequest.t) (store : UserService.users) :
  let user_id := GetUserRequest.user_id request in
  (forall user,
     UserService.GetUser request store =
       ({| UserResponse.success := true;
           UserResponse.message := "User found";
           UserResponse.user := Some user |}, store)
     <-> user_id <> "" /\ JS.get store user_id = Some user)
  /\ (user_id = "" ->
      UserService.GetUser request store =
        ({| UserResponse.success := false;
            UserResponse.message := "User ID is required";
            UserResponse.user := None |}, store))
  /\ (user_id <> "" -> JS.get store user_id = None ->
      UserService.GetUser request store =
        ({| UserResponse.success := false;
            UserResponse.message := "User not found";
            UserResponse.user := None |}, store)).
Proof.
  cbn zeta. unfold UserService.GetUser, bind, Map_get, ret.
  destruct (JS.falsy_string (GetUserRequest.user_id request)) eqn:E.
  - apply falsy_string_iff in E. split; [| split].
    + intros user. split; [discriminate | intros [H _]; contradiction].
    + reflexivity.
    + contradiction.
  - assert (N : GetUserRequest.user_id request <> "").
    { intros H. apply falsy_string_iff in H. congruence. }
    split; [| split].
    + intros user. split.
      * destruct (JS.get store _); intros [= ->]. now split.
      * intros [_ ->]. reflexivity.
    + contradiction.
    + intros _ ->. reflexivity.
Qed.

(** X2. [CreateUser] never loses a user: whoever could be looked up
    before can be looked up after, and under every identifier other than
    the one just drawn the store holds what it held. *)
Theorem CreateUser_keeps_the_others
  (entropy : Entropy) (request : CreateUserRequest.t)
  (store : UserService.users) (k : string) :
  let store' := snd (UserService.CreateUser entropy request store) in
  (JS.get store k <> None -> JS.get store' k <> None)
  /\ (k <> uuid.v4 (rnds entropy) -> JS.get store' k = JS.get store k).
Proof.
  cbn zeta.
  destruct (CreateUser_effect entropy request store)
    as [[-> _] | (user & -> & _)]; cbn [snd].
  - tauto.
  - split.
    + apply get_set_keeps.
    + intros N. apply get_set_other. congruence.
Qed.

(** X3. After a successful [CreateUser] whose identifier is new to the
    store, [ListUsers] gives the users it gave before, in the same order,
    followed by the new user, and counts one more in its message. *)
Theorem ListUsers_after_CreateUser
  (entropy : Entropy) (request : CreateUserRequest.t) (store : UserService.users) :
  CreateUserRequest.name request <> "" ->
  CreateUserRequest.email request <> "" ->
  JS.get store (uuid.v4 (rnds entropy)) = None ->
  exists (user : User.t) (store' : UserService.users),
    UserService.CreateUser entropy request store =
      ({| UserResponse.success := true;
          UserResponse.message := "User created successfully";
          UserResponse.user := Some user |}, store')
    /\ UserService.ListUsers store' =
         ({| ListUsersResponse.success := true;
             ListUsersResponse.message :=
               "Found " ++ JS.string_of_length (S (JS.size store)) ++ " users";
             ListUsersResponse.users :=
               (ListUsersResponse.users (fst (UserService.ListUsers store))
                  ++ [user])%list |}, store').
Proof.
  intros Hname Hemail Hfresh.
  destruct (CreateUser_effect entropy request store)
    as [[_ [H | H]] | (user & Hcreate & _)]; try contradiction.
  exists user, (JS.set store (uuid.v4 (rnds entropy)) user).
  split; [exact Hcreate |].
  unfold UserService.ListUsers, bind, Map_values, ret. cbn [fst ListUsersResponse.users].
  rewrite values_set_fresh by exact Hfresh.
  unfold JS.values at 1. rewrite length_app, length_map. cbn [List.length].
  unfold JS.size. now rewrite Nat.add_1_r.
Qed.

Lemma ListUsers_after_CreateUser_witness :
  exists (user : User.t) (store' : UserService.users),
    UserService.CreateUser Sample.entropy
      {| CreateUserRequest.name := "Bo";
         CreateUserRequest.email := "bo@example.com" |}
      (System.users Sample.one_user) =
      ({| UserResponse.success := true;
          UserResponse.message := "User created successfully";
          UserResponse.user := Some user |}, store')
    /\ UserService.ListUsers store' =
         ({| ListUsersResponse.success := true;
             ListUsersResponse.message := "Found 2 users";
             ListUsersResponse.users := [Sample.alex; user] |}, store').
Proof.
  apply (@ListUsers_after_CreateUser Sample.entropy
           {| CreateUserRequest.name := "Bo";
              CreateUserRequest.email := "bo@example.com" |}
           (System.users Sample.one_user));
    cbn; solve [discriminate | reflexivity].
Defined.

Lemma CreateUser_keeps_the_others_witness :
  JS.get (snd (UserService.CreateUser Sample.entropy
                 {| CreateUserRequest.name := "Bo";
                    CreateUserRequest.email := "bo@example.com" |}
                 (System.users Sample.one_user))) "u1" = Some Sample.alex.
Proof.
  apply (proj2 (@CreateUser_keeps_the_others Sample.entropy
                  {| CreateUserRequest.name := "Bo";
                     CreateUserRequest.email := "bo@example.com" |}
                  (System.users Sample.one_user) "u1")).
  cbn. discriminate.
Defined.

(** ** The order service, further *)

(** The outcomes of [CreateOrder]: a refusal that leaves the world as it
    is (a field failed the check, the call to the user service failed, or
    the user service knows no such user), or one [set] of the new order,
    after the user service has answered with the user. *)
Lemma CreateOrder_effect (entropy : Entropy) (request : CreateOrderRequest.t)
  (link : Grpc.link) (w : System.World) :
  (exists response,
     System.run_task link (OrderService.CreateOrder entropy request) w =
       (response, w)
     /\ OrderResponse.success response = false
     /\ OrderResponse.order response = None
     /\ ((CreateOrderRequest.user_id request = ""
          \/ CreateOrderRequest.product_name request = ""
          \/ JS.falsy_number (CreateOrderRequest.amount request) = true
          \/ CreateOrderRequest.quantity request = 0%Z)
         \/ fault link <> None
         \/ JS.get (System.users w) (CreateOrderRequest.user_id request) = None))
  \/ (System.run_task link (OrderService.CreateOrder entropy request) w =
        ({| OrderResponse.success := true;
            OrderResponse.message := "Order created successfully";
            OrderResponse.order := Some (order_of entropy request) |},
         {| System.users := System.users w;
            System.orders :=
              JS.set (System.orders w) (uuid.v4 (rnds entropy))
                (order_of entropy request) |})
      /\ CreateOrderRequest.user_id request <> ""
      /\ CreateOrderRequest.product_name request <> ""
      /\ JS.falsy_number (CreateOrderRequest.amount request) = false
      /\ CreateOrderRequest.quantity request <> 0%Z
      /\ link = Grpc.up
      /\ JS.get (System.users w) (CreateOrderRequest.user_id request) <> None).
Proof.
  destruct (JS.falsy_string (CreateOrderRequest.user_id request)
            || JS.falsy_string (CreateOrderRequest.product_name request)
            || JS.falsy_number (CreateOrderRequest.amount request)
            || OrderService.falsy_int32 (CreateOrderRequest.quantity request))
    eqn:Echeck.
  - left. exists fields_required.
    unfold OrderService.CreateOrder. rewrite Echeck.
    cbn [System.run_task]. rewrite in_orders_ret.
    do 3 (split; [reflexivity |]). left.
    rewrite !orb_true_iff, !falsy_string_iff, falsy_int32_iff in Echeck. tauto.
  - rewrite !orb_false_iff in Echeck.
    destruct Echeck as [[[Eid Eproduct] Eamount] Equantity].
    assert (Hid : CreateOrderRequest.user_id request <> "").
    { intros H. apply falsy_string_iff in H. congruence. }
    assert (Hproduct : CreateOrderRequest.product_name request <> "").
    { intros H. apply falsy_string_iff in H. congruence. }
    assert (Hquantity : CreateOrderRequest.quantity request <> 0%Z).
    { intros H. apply falsy_int32_iff in H. congruence. }
    unfold OrderService.CreateOrder. rewrite Eid, Eproduct, Eamount, Equantity.
    cbn [orb]. unfold OrderService.verifyUser. rewrite run_task_await.
    destruct link as [| e | e].
    + unfold UserService.GetUser, bind, Map_get, ret.
      cbn [GetUserRequest.user_id]. rewrite Eid.
      destruct (JS.get (System.users w) (CreateOrderRequest.user_id request))
        eqn:Eget; cbn [fst UserResponse.user System.run_task].
      * right. split; [| repeat split; congruence].
        unfold System.in_orders, bind, Map_set, ret. reflexivity.
      * left. eexists. split; [apply in_orders_ret |].
        do 2 (split; [reflexivity |]). right. now right.
    + left. cbn [System.run_task]. rewrite in_orders_ret.
      eexists. split; [reflexivity |]. do 2 (split; [reflexivity |]).
      right. left. discriminate.
    + left. cbn [System.run_task]. rewrite in_orders_ret.
      eexists. split; [reflexivity |]. do 2 (split; [reflexivity |]).
      right. left. discriminate.
Qed.

(** ** What every request keeps true *)

Lemma users_well_keyed_CreateUser (entropy : Entropy)
  (request : CreateUserRequest.t) (store : UserService.users) :
  users_well_keyed store ->
  users_well_keyed (snd (UserService.CreateUser entropy request store)).
Proof.
  intros [Hnd Hentries].
  destruct (CreateUser_effect entropy request store)
    as [[-> _] | (user & -> & Hid & _ & _ & _ & Hname & Hemail)]; cbn [snd].
  - now split.
  - split; [now apply NoDup_keys_set |].
    intros k u Hin. apply In_set in Hin as [[-> ->] | Hin]; [| now apply Hentries].
    repeat split; try assumption. apply v4_not_empty.
Qed.

Lemma orders_well_formed_more_users
  (us us' : UserService.users) (os : OrderService.orders) :
  (forall k, JS.get us k <> None -> JS.get us' k <> None) ->
  orders_well_formed us os -> orders_well_formed us' os.
Proof.
  intros Hmore [Hnd Hentries]. split; [assumption |].
  intros k order Hin.
  destruct (Hentries k order Hin) as (? & ? & ? & ? & ? & ? & ? & ?).
  repeat split; try assumption. now apply Hmore.
Qed.

Lemma serve_keeps_consistent (env : System.Env) (A : Type) (c : Gateway.rpc A)
  (w : System.World) :
  consistent w -> consistent (snd (System.serve env c w)).
Proof.
  intros Hw.
  destruct (System.read_only c) eqn:Hread.
  { now rewrite (read_only_keeps_world env c w Hread). }
  destruct c; try discriminate; cbn [System.serve].
  - (* CreateUser *)
    destruct Hw as [Hus Hos]. unfold System.in_users.
    pose proof (users_well_keyed_CreateUser (System.user_entropy env)
                  (System.CreateUserRequest_fromObject request) Hus) as Hus'.
    assert (Hmore : forall k,
               JS.get (System.users w) k <> None ->
               JS.get (snd (UserService.CreateUser (System.user_entropy env)
                              (System.CreateUserRequest_fromObject request)
                              (System.users w))) k <> None).
    { intros k.
      destruct (CreateUser_effect (System.user_entropy env)
                  (System.CreateUserRequest_fromObject request) (System.users w))
        as [[-> _] | (user & -> & _)]; cbn [snd]; [tauto | apply get_set_keeps]. }
    destruct (UserService.CreateUser _ _ _) as [response us']. cbn [snd] in *.
    split; cbn [System.users System.orders]; [assumption |].
    now apply (@orders_well_formed_more_users (System.users w)).
  - (* CreateOrder *)
    destruct (CreateOrder_effect (System.order_entropy env)
                (System.CreateOrderRequest_fromObject request)
                (System.order_user env) w)
      as [(response & -> & _) | (-> & Hid & Hproduct & Hamount & Hquantity & _ & Huser)];
      cbn [snd]; [assumption |].
    destruct Hw as [Hus [Hnd Hentries]].
    split; cbn [System.users System.orders]; [assumption |].
    split; [now apply NoDup_keys_set |].
    intros k order Hin. apply In_set in Hin as [[-> ->] | Hin]; [| now apply Hentries].
    cbn. repeat split; try assumption. apply v4_not_empty.
Qed.

Section RunInvariant.

Variable P : System.World -> Prop.
Variable env : System.Env.
Hypothesis serve_keeps :
  forall (A : Type) (c : Gateway.rpc A) (w : System.World),
    P w -> P (snd (System.serve env c w)).

Lemma perform_keeps (A : Type) (c : Gateway.rpc A) (w : System.World) :
  P w -> P (snd (System.perform env c w)).
Proof.
  intros Hw. pose proof (serve_keeps c Hw) as Hs.
  unfold System.perform, Grpc.unary, bind, ret.
  destruct (System.channel env c); [| assumption |];
    now destruct (System.serve env c w).
Qed.

Lemma run_keeps (h : Gateway.handler) : forall w, P w -> P (snd (System.run env h w)).
Proof.
  induction h as [r | A c callback IH | A B c1 c2 k IH]; intros w Hw;
    cbn [System.run].
  - exact Hw.
  - unfold bind. pose proof (perform_keeps c Hw) as H1.
    destruct (System.perform env c w) as [r1 w1]. now apply IH.
  - unfold bind. pose proof (perform_keeps c1 Hw) as H1.
    destruct (System.perform env c1 w) as [r1 w1]. cbn [snd] in H1.
    pose proof (perform_keeps c2 H1) as H2.
    destruct (System.perform env c2 w1) as [r2 w2]. now apply IH.
Qed.

End RunInvariant.

Lemma one_user_consistent : consistent Sample.one_user.
Proof.
  split; split.
  - cbn. repeat constructor. intros [].
  - intros k user [[= <- <-] | []]. cbn.
    repeat split; solve [reflexivity | discriminate].
  - constructor.
  - intros k order [].
Qed.

(** X4. Whatever the request and whatever the channels do, a request
    leaves the stores consistent if it found them so: identifiers stay
    distinct, every record sits under its own non-empty identifier, users
    have a name and an address, and every order is pending, passed the
    required-fields check and belongs to a user the user store holds. *)
Theorem every_request_keeps_the_stores_consistent
  (globals : JS.Globals) (env : System.Env) (req : Gateway.request)
  (w : System.World) :
  consistent w -> consistent (snd (System.handle env req w)).
Proof.
  unfold System.handle. apply run_keeps.
  intros A c w0. apply serve_keeps_consistent.
Qed.

Lemma every_request_keeps_the_stores_consistent_witness :
  consistent
    (snd (@System.handle Decimal.globals Sample.calm
            (Gateway.POST_api_orders
               {| PostOrdersBody.user_id := Some "u1";
                  PostOrdersBody.product_name := Some "Widget";
                  PostOrdersBody.amount := JS.str "12";
                  PostOrdersBody.quantity := JS.num 2%float |})
            Sample.one_user)).
Proof.
  apply every_request_keeps_the_stores_consistent.
  exact one_user_consistent.
Defined.

(** X5. From the start of the services on, after any sequence of
    requests under any behaviour of the channels, every stored order is
    pending and [GetUser] finds the user it belongs to: no order is ever
    on record for a user the user service does not know. *)
Theorem every_order_has_its_user
  (globals : JS.Globals) (rs : list (System.Env * Gateway.request))
  (k : string) (order : Order.t) :
  let w := handle_all rs boot in
  In (k, order) (System.orders w) ->
  Order.status order = "pending"
  /\ exists user,
       UserService.GetUser {| GetUserRequest.user_id := Order.user_id order |}
         (System.users w) =
         ({| UserResponse.success := true;
             UserResponse.message := "User found";
             UserResponse.user := Some user |}, System.users w).
Proof.
  cbn zeta.
  assert (Hboot : consistent boot).
  { split; split; [constructor | intros ? ? [] | constructor | intros ? ? []]. }
  revert Hboot. generalize boot as w.
  induction rs as [| [env req] rs IH]; intros w Hw Hin; cbn [handle_all] in *.
  - destruct Hw as [_ [_ Hentries]].
    destruct (Hentries k order Hin) as (_ & _ & Hstatus & _ & _ & _ & Hid & Huser).
    split; [assumption |].
    destruct (JS.get (System.users w) (Order.user_id order)) as [user |] eqn:E;
      [| contradiction].
    exists user. now apply GetUser_present.
  - apply (IH (snd (System.handle env req w))); [| assumption].
    unfold System.handle. apply run_keeps; [| assumption].
    intros A c w0. apply serve_keeps_consistent.
Qed.

Lemma every_order_has_its_user_witness :
  let w :=
    @handle_all Decimal.globals
      [(Sample.calm,
        Gateway.POST_api_users
          {| PostUsersBody.name := Some "Alex";
             PostUsersBody.email := Some "alex@example.com" |});
       (Sample.calm,
        Gateway.POST_api_orders
          {| PostOrdersBody.user_id := Some "01020304-0506-4708-890a-0b0c0d0e0f10";
             PostOrdersBody.product_name := Some "Widget";
             PostOrdersBody.amount := JS.num 9.5%float;
             PostOrdersBody.quantity := JS.str "2" |})] boot in
  exists k order,
    In (k, order) (System.orders w)
    /\ Order.status order = "pending"
    /\ exists user,
         UserService.GetUser {| GetUserRequest.user_id := Order.user_id order |}
           (System.users w) =
           ({| UserResponse.success := true;
               UserResponse.message := "User found";
               UserResponse.user := Some user |}, System.users w).
Proof.
  cbn zeta. do 2 eexists.
  assert (Hin : In ("01020304-0506-4708-890a-0b0c0d0e0f10",
                    order_of Sample.entropy
                      {| CreateOrderRequest.user_id :=
                           "01020304-0506-4708-890a-0b0c0d0e0f10";
                         CreateOrderRequest.product_name := "Widget";
                         CreateOrderRequest.amount := 9.5%float;
                         CreateOrderRequest.quantity := 2 |})
                (System.orders
                   (@handle_all Decimal.globals
                      [(Sample.calm,
                        Gateway.POST_api_users
                          {| PostUsersBody.name := Some "Alex";
                             PostUsersBody.email := Some "alex@example.com" |});
                       (Sample.calm,
                        Gateway.POST_api_orders
                          {| PostOrdersBody.user_id :=
                               Some "01020304-0506-4708-890a-0b0c0d0e0f10";
                             PostOrdersBody.product_name := Some "Widget";
                             PostOrdersBody.amount := JS.num 9.5%float;
                             PostOrdersBody.quantity := JS.str "2" |})] boot))).
  { left. reflexivity. }
  split; [exact Hin |].
  exact (@every_order_has_its_user Decimal.globals _ _ _ Hin).
Defined.

(** X6. On a store whose users sit under their own identifiers, the
    users [ListUsers] gives are exactly the users [GetUser] finds when
    asked with their identifier. *)
Theorem listed_users_are_the_ones_GetUser_finds
  (store : UserService.users) (user : User.t) :
  users_well_keyed store ->
  In user (ListUsersResponse.users (fst (UserService.ListUsers store)))
  <-> UserService.GetUser {| GetUserRequest.user_id := User.id user |} store =
        ({| UserResponse.success := true;
            UserResponse.message := "User found";
            UserResponse.user := Some user |}, store).
Proof.
  intros [Hnd Hentries].
  unfold UserService.ListUsers, bind, Map_values, ret.
  cbn [fst ListUsersResponse.users]. unfold JS.values. split.
  - intros Hin. apply in_map_iff in Hin as ([k u] & Hu & Hin). cbn in Hu. subst u.
    destruct (Hentries k user Hin) as (Hid & Hk & _).
    apply GetUser_present; cbn [GetUserRequest.user_id]; rewrite Hid;
      [assumption | now apply In_get].
  - intros Hget. unfold UserService.GetUser, bind, Map_get, ret in Hget.
    cbn [GetUserRequest.user_id] in Hget.
    destruct (JS.falsy_string (User.id user)); [discriminate |].
    destruct (JS.get store (User.id user)) as [u |] eqn:E; [| discriminate].
    injection Hget as ->. apply get_Some_In in E.
    change user with (snd (User.id user, user)). now apply in_map.
Qed.

Lemma listed_users_are_the_ones_GetUser_finds_witness :
  In Sample.alex
    (ListUsersResponse.users
       (fst (UserService.ListUsers (System.users Sample.one_user))))
  <-> UserService.GetUser {| GetUserRequest.user_id := "u1" |}
        (System.users Sample.one_user) =
        ({| UserResponse.success := true;
            UserResponse.message := "User found";
            UserResponse.user := Some Sample.alex |},
          System.users Sample.one_user).
Proof.
  apply (@listed_users_are_the_ones_GetUser_finds
           (System.users Sample.one_user) Sample.alex).
  exact (proj1 one_user_consistent).
Defined.

(** ** The order service: reads, round trips and the failed dependency *)

(** X7. [GetOrdersByUser] with an empty identifier is refused with
    "User ID is required" and no orders.  With any other identifier it
    succeeds, also when nothing matches (the empty list), and the orders
    it gives are exactly the stored orders owned by that user: all of the
    store when every order is theirs.  The store is the same afterwards. *)
Theorem GetOrdersByUser_gives_the_orders_of_the_user
  (request : GetOrdersByUserRequest.t) (store : OrderService.orders) :
  let user_id := GetOrdersByUserRequest.user_id request in
  (user_id = "" ->
   OrderService.GetOrdersByUser request store =
     ({| OrdersResponse.success := false;
         OrdersResponse.message := "User ID is required";
         OrdersResponse.orders := [] |}, store))
  /\ (user_id <> "" ->
      exists userOrders,
        OrderService.GetOrdersByUser request store =
          ({| OrdersResponse.success := true;
              OrdersResponse.message := "Orders retrieved successfully";
              OrdersResponse.orders := userOrders |}, store)
        /\ (forall order,
              In order userOrders <->
              In order (JS.values store) /\ Order.user_id order = user_id)
        /\ (Forall (fun order => Order.user_id order <> user_id) (JS.values store) ->
            userOrders = [])
        /\ (Forall (fun order => Order.user_id order = user_id) (JS.values store) ->
            userOrders = JS.values store)).
Proof.
  cbn zeta. unfold OrderService.GetOrdersByUser, bind, Map_values, ret. split.
  - intros ->. reflexivity.
  - intros N. rewrite (truthy_string N). eexists. split; [reflexivity |].
    split; [| split].
    + intros order. rewrite filter_In, String.eqb_eq. tauto.
    + intros Hnone.
      induction (JS.values store) as [| o l IH]; cbn; [reflexivity |].
      inversion Hnone as [| ? ? Ho Hl]; subst.
      apply String.eqb_neq in Ho. rewrite Ho. now apply IH.
    + intros Hall.
      induction (JS.values store) as [| o l IH]; cbn; [reflexivity |].
      inversion Hall as [| ? ? Ho Hl]; subst.
      rewrite Ho, String.eqb_refl. f_equal. now apply IH.
Qed.

(** X8. [GetOrder] answers "Order retrieved successfully" with an order
    exactly when the identifier asked for is not empty and the store holds
    that order under it; an empty identifier is refused with "Order ID is
    required", an identifier the store does not hold with "Order not
    found". *)
Theorem GetOrder_finds_what_is_stored
  (request : GetOrderRequest.t) (store : OrderService.orders) :
  let order_id := GetOrderRequest.order_id request in
  (forall order,
     OrderService.GetOrder request store =
       ({| OrderResponse.success := true;
           OrderResponse.message := "Order retrieved successfully";
           OrderResponse.order := Some order |}, store)
     <-> order_id <> "" /\ JS.get store order_id = Some order)
  /\ (order_id = "" ->
      OrderService.GetOrder request store =
        ({| OrderResponse.success := false;
            OrderResponse.message := "Order ID is required";
            OrderResponse.order := None |}, store))
  /\ (order_id <> "" -> JS.get store order_id = None ->
      OrderService.GetOrder request store =
        ({| OrderResponse.success := false;
            OrderResponse.message := "Order not found";
            OrderResponse.order := None |}, store)).
Proof.
  cbn zeta. unfold OrderService.GetOrder, bind, Map_get, ret.
  destruct (JS.falsy_string (GetOrderRequest.order_id request)) eqn:E.
  - apply falsy_string_iff in E. split; [| split].
    + intros order. split; [discriminate | intros [H _]; contradiction].
    + reflexivity.
    + contradiction.
  - assert (N : GetOrderRequest.order_id request <> "").
    { intros H. apply falsy_string_iff in H. congruence. }
    split; [| split].
    + intros order. split.
      * destruct (JS.get store _); intros [= ->]. now split.
      * intros [_ ->]. reflexivity.
    + contradiction.
    + intros _ ->. reflexivity.
Qed.

(** X9. An order that [CreateOrder] has accepted can be read back:
    [GetOrder] with the identifier of the returned order answers with that
    very order. *)
Theorem CreateOrder_then_GetOrder
  (entropy : Entropy) (request : CreateOrderRequest.t) (link : Grpc.link)
  (w : System.World) :
  OrderResponse.success
    (fst (System.run_task link (OrderService.CreateOrder entropy request) w)) = true ->
  exists (order : Order.t) (w' : System.World),
    System.run_task link (OrderService.CreateOrder entropy request) w =
      ({| OrderResponse.success := true;
          OrderResponse.message := "Order created successfully";
          OrderResponse.order := Some order |}, w')
    /\ OrderService.GetOrder {| GetOrderRequest.order_id := Order.id order |}
         (System.orders w') =
         ({| OrderResponse.success := true;
             OrderResponse.message := "Order retrieved successfully";
             OrderResponse.order := Some order |}, System.orders w').
Proof.
  intros Hsuccess.
  destruct (CreateOrder_effect entropy request link w)
    as [(response & Hrun & Hfalse & _) | (Hrun & _)].
  { rewrite Hrun in Hsuccess. cbn in Hsuccess. congruence. }
  do 2 eexists. split; [exact Hrun |].
  unfold OrderService.GetOrder, bind, Map_get, ret.
  cbn [GetOrderRequest.order_id Order.id order_of System.orders].
  now rewrite v4_truthy, get_set_same.
Qed.

Lemma CreateOrder_then_GetOrder_witness :
  exists (order : Order.t) (w' : System.World),
    System.run_task Grpc.up
      (OrderService.CreateOrder Sample.entropy
         {| CreateOrderRequest.user_id := "u1";
            CreateOrderRequest.product_name := "Widget";
            CreateOrderRequest.amount := 9.5%float;
            CreateOrderRequest.quantity := 2 |}) Sample.one_user =
      ({| OrderResponse.success := true;
          OrderResponse.message := "Order created successfully";
          OrderResponse.order := Some order |}, w')
    /\ OrderService.GetOrder {| GetOrderRequest.order_id := Order.id order |}
         (System.orders w') =
         ({| OrderResponse.success := true;
             OrderResponse.message := "Order retrieved successfully";
             OrderResponse.order := Some order |}, System.orders w').
Proof.
  apply (@CreateOrder_then_GetOrder Sample.entropy
           {| CreateOrderRequest.user_id := "u1";
              CreateOrderRequest.product_name := "Widget";
              CreateOrderRequest.amount := 9.5%float;
              CreateOrderRequest.quantity := 2 |} Grpc.up Sample.one_user).
  reflexivity.
Defined.

(** X10. [CreateOrder] succeeds exactly when the four fields pass the
    required-fields check, the call to the user service goes through, and
    the user service holds the user. *)
Theorem CreateOrder_succeeds_exactly_when
  (entropy : Entropy) (request : CreateOrderRequest.t) (link : Grpc.link)
  (w : System.World) :
  OrderResponse.success
    (fst (System.run_task link (OrderService.CreateOrder entropy request) w)) = true
  <-> (CreateOrderRequest.user_id request <> ""
       /\ CreateOrderRequest.product_name request <> ""
       /\ JS.falsy_number (CreateOrderRequest.amount request) = false
       /\ CreateOrderRequest.quantity request <> 0%Z)
      /\ link = Grpc.up
      /\ JS.get (System.users w) (CreateOrderRequest.user_id request) <> None.
Proof.
  destruct (CreateOrder_effect entropy request link w)
    as [(response & -> & Hfalse & _ & Hwhy) | (-> & Hid & Hp & Ha & Hq & Hl & Hu)];
    cbn [fst].
  - split; [congruence |].
    intros ((Hid & Hp & Ha & Hq) & -> & Hu). exfalso.
    destruct Hwhy as [[? | [? | [? | ?]]] | [? | ?]]; cbn in *; congruence.
  - split; [| reflexivity]. intros _. repeat split; assumption.
Qed.

(** X11. When the call to the user service fails in transport, for a
    request whose fields pass the check, [CreateOrder] still calls back
    without an error: [success: false], the message of the transport
    error, no order, and both stores as they were, whether or not the
    user exists. *)
Theorem CreateOrder_when_the_user_service_fails
  (entropy : Entropy) (request : CreateOrderRequest.t) (link : Grpc.link)
  (e : Grpc.ServiceError) (w : System.World) :
  CreateOrderRequest.user_id request <> "" ->
  CreateOrderRequest.product_name request <> "" ->
  JS.falsy_number (CreateOrderRequest.amount request) = false ->
  CreateOrderRequest.quantity request <> 0%Z ->
  fault link = Some e ->
  System.run_task link (OrderService.CreateOrder entropy request) w =
    ({| OrderResponse.success := false;
        OrderResponse.message := Grpc.message e;
        OrderResponse.order := None |}, w).
Proof.
  intros Hid Hproduct Hamount Hquantity Hfault.
  unfold OrderService.CreateOrder.
  rewrite (truthy_string Hid), (truthy_string Hproduct), Hamount.
  apply Z.eqb_neq in Hquantity. unfold OrderService.falsy_int32.
  rewrite Hquantity. cbn [orb]. unfold OrderService.verifyUser.
  rewrite run_task_await.
  destruct link as [| e' | e']; cbn [fault] in Hfault; try discriminate;
    injection Hfault as ->; cbn [System.run_task]; apply in_orders_ret.
Qed.

Lemma CreateOrder_when_the_user_service_fails_witness :
  System.run_task (Grpc.response_lost Sample.unavailable)
    (OrderService.CreateOrder Sample.entropy
       {| CreateOrderRequest.user_id := "u1";
          CreateOrderRequest.product_name := "Widget";
          CreateOrderRequest.amount := 9.5%float;
          CreateOrderRequest.quantity := 2 |}) Sample.one_user =
    ({| OrderResponse.success := false;
        OrderResponse.message := "14 UNAVAILABLE: No connection established";
        OrderResponse.order := None |}, Sample.one_user).
Proof.
  apply (@CreateOrder_when_the_user_service_fails Sample.entropy
           {| CreateOrderRequest.user_id := "u1";
              CreateOrderRequest.product_name := "Widget";
              CreateOrderRequest.amount := 9.5%float;
              CreateOrderRequest.quantity := 2 |}
           (Grpc.response_lost Sample.unavailable) Sample.unavailable
           Sample.one_user);
    cbn; solve [discriminate | reflexivity].
Defined.

(** X12. [CreateOrder] never touches the user store and never loses an
    order: whatever could be looked up before can be looked up after, and
    under every identifier other than the one just drawn the order store
    holds what it held. *)
Theorem CreateOrder_keeps_the_others
  (entropy : Entropy) (request : CreateOrderRequest.t) (link : Grpc.link)
  (w : System.World) (k : string) :
  let w' := snd (System.run_task link (OrderService.CreateOrder entropy request) w) in
  System.users w' = System.users w
  /\ (JS.get (System.orders w) k <> None -> JS.get (System.orders w') k <> None)
  /\ (k <> uuid.v4 (rnds entropy) ->
      JS.get (System.orders w') k = JS.get (System.orders w) k).
Proof.
  cbn zeta.
  destruct (CreateOrder_effect entropy request link w)
    as [(response & -> & _) | (-> & _)]; cbn [snd System.users System.orders].
  - tauto.
  - split; [reflexivity |]. split.
    + apply get_set_keeps.
    + intros N. apply get_set_other. congruence.
Qed.

(** X13. After [CreateOrder] has accepted an order under an identifier
    new to the store, [GetOrdersByUser] gives the owner the orders they
    had, in the same order, followed by the new one, and gives every other
    user what it gave before. *)
Theorem CreateOrder_then_GetOrdersByUser
  (entropy : Entropy) (request : CreateOrderRequest.t) (link : Grpc.link)
  (w : System.World) (user_id : string) :
  OrderResponse.success
    (fst (System.run_task link (OrderService.CreateOrder entropy request) w)) = true ->
  JS.get (System.orders w) (uuid.v4 (rnds entropy)) = None ->
  user_id <> "" ->
  let w' := snd (System.run_task link (OrderService.CreateOrder entropy request) w) in
  let orders_of store :=
    OrdersResponse.orders
      (fst (OrderService.GetOrdersByUser
              {| GetOrdersByUserRequest.user_id := user_id |} store)) in
  orders_of (System.orders w') =
    (orders_of (System.orders w)
       ++ (if (CreateOrderRequest.user_id request =? user_id)%string
           then [order_of entropy request] else []))%list.
Proof.
  intros Hsuccess Hfresh Hid. cbn zeta.
  destruct (CreateOrder_effect entropy request link w)
    as [(response & Hrun & Hfalse & _) | (Hrun & _)].
  { rewrite Hrun in Hsuccess. cbn in Hsuccess. congruence. }
  rewrite Hrun. cbn [snd System.orders].
  unfold OrderService.GetOrdersByUser, bind, Map_values, ret.
  cbn [GetOrdersByUserRequest.user_id]. rewrite (truthy_string Hid).
  cbn [fst OrdersResponse.orders].
  rewrite values_set_fresh by exact Hfresh.
  rewrite filter_app. cbn [filter order_of Order.user_id].
  now destruct (CreateOrderRequest.user_id request =? user_id)%string.
Qed.

Lemma CreateOrder_then_GetOrdersByUser_witness :
  OrdersResponse.orders
    (fst (OrderService.GetOrdersByUser
            {| GetOrdersByUserRequest.user_id := "u1" |}
            (System.orders
               (snd (System.run_task Grpc.up
                       (OrderService.CreateOrder Sample.entropy
                          {| CreateOrderRequest.user_id := "u1";
                             CreateOrderRequest.product_name := "Widget";
                             CreateOrderRequest.amount := 9.5%float;
                             CreateOrderRequest.quantity := 2 |})
                       Sample.one_user))))) =
    [order_of Sample.entropy
       {| CreateOrderRequest.user_id := "u1";
          CreateOrderRequest.product_name := "Widget";
          CreateOrderRequest.amount := 9.5%float;
          CreateOrderRequest.quantity := 2 |}].
Proof.
  apply (@CreateOrder_then_GetOrdersByUser Sample.entropy
           {| CreateOrderRequest.user_id := "u1";
              CreateOrderRequest.product_name := "Widget";
              CreateOrderRequest.amount := 9.5%float;
              CreateOrderRequest.quantity := 2 |} Grpc.up Sample.one_user "u1");
    cbn; solve [discriminate | reflexivity].
Defined.

(** ** The gateway, further *)

(** A route with one call whose callback passes a response on and
    answers an error with the 500: the answer and the world it leaves, by
    the state of the channel. *)
Lemma run_route (env : System.Env) (A : Type)
  (to_json : A -> Gateway.json) (c : Gateway.rpc A)
  (callback : Grpc.outcome A -> Gateway.handler) (w : System.World) :
  (forall response, callback (Grpc.ok response) =
     Gateway.res {| Gateway.status := 200; Gateway.body := to_json response |}) ->
  (forall e, callback (Grpc.error e) = Gateway.res (internal_server_error e)) ->
  System.run env (Gateway.call c callback) w =
    (match fault (System.channel env c) with
     | None => {| Gateway.status := 200;
                  Gateway.body := to_json (fst (System.serve env c w)) |}
     | Some e => internal_server_error e
     end,
     match System.channel env c with
     | Grpc.request_lost _ => w
     | _ => snd (System.serve env c w)
     end).
Proof.
  intros Hok Herror. rewrite run_call.
  destruct (System.channel env c) as [| e | e]; cbn [fault];
    rewrite ?Hok, ?Herror; reflexivity.
Qed.

Ltac route :=
  match goal with
  | |- context [System.run ?env (Gateway.call ?c ?callback) ?w] =>
      rewrite (@run_route env _ _ c callback w
                 (fun response => eq_refl) (fun e => eq_refl))
  end.

Lemma local_check_passes (userId : string) :
  JS.falsy_string userId || (userId =? "undefined") || (userId =? "null")
    || (JS.trim userId =? "") = false
  <-> userId <> "" /\ userId <> "undefined" /\ userId <> "null"
      /\ JS.trim userId <> "".
Proof.
  rewrite !orb_false_iff, !String.eqb_neq. unfold JS.falsy_string.
  rewrite String.eqb_neq. tauto.
Qed.

(** X14. A get-user request that passes the gateway's own check is
    forwarded with the identifier trimmed, which is then not empty: the
    user service's "User ID is required" is never the answer of this
    route.  The caller gets the user service's answer for the trimmed
    identifier with status 200, or the 500 if the channel failed, and the
    stores are left alone. *)
Theorem get_user_asks_for_the_trimmed_id
  (globals : JS.Globals) (env : System.Env) (userId : string) (w : System.World) :
  userId <> "" -> userId <> "undefined" -> userId <> "null" ->
  JS.trim userId <> "" ->
  let answer :=
    fst (UserService.GetUser {| GetUserRequest.user_id := JS.trim userId |}
           (System.users w)) in
  System.handle env (Gateway.GET_api_users_userId userId) w =
    (match fault (System.gateway_user env) with
     | None => {| Gateway.status := 200;
                  Gateway.body := Gateway.of_UserResponse answer |}
     | Some e => internal_server_error e
     end, w)
  /\ UserResponse.message answer <> "User ID is required".
Proof.
  intros H1 H2 H3 H4. cbn zeta. split.
  - unfold System.handle. cbn [Gateway.app]. unfold Gateway.get_api_users_userId.
    rewrite (proj2 (local_check_passes userId)) by tauto.
    route. cbn [System.channel System.serve].
    rewrite in_users_read by apply GetUser_keeps_store. cbn [fst snd].
    now destruct (System.gateway_user env).
  - unfold UserService.GetUser, bind, Map_get, ret.
    cbn [GetUserRequest.user_id]. rewrite (truthy_string H4).
    destruct (JS.get _ _); cbn; discriminate.
Qed.

Lemma get_user_asks_for_the_trimmed_id_witness :
  @System.handle Decimal.globals Sample.calm
    (Gateway.GET_api_users_userId "  u1 ") Sample.one_user =
    ({| Gateway.status := 200;
        Gateway.body :=
          Gateway.of_UserResponse
            {| UserResponse.success := true;
               UserResponse.message := "User found";
               UserResponse.user := Some Sample.alex |} |}, Sample.one_user).
Proof.
  apply (@get_user_asks_for_the_trimmed_id Decimal.globals Sample.calm
           "  u1 " Sample.one_user); cbn; discriminate.
Defined.

(** X15. No route registered with [app.get] changes a store, whatever
    the identifier in the path and whatever the channels do. *)
Theorem get_routes_change_nothing
  (globals : JS.Globals) (env : System.Env) (req : Gateway.request)
  (w : System.World) :
  is_get req = true -> snd (System.handle env req w) = w.
Proof.
  unfold System.handle.
  destruct req; cbn [is_get Gateway.app]; intros Hget; try discriminate.
  - unfold Gateway.get_api_users_userId.
    destruct (_ || _)%bool; [reflexivity |].
    route. cbn [snd System.channel].
    rewrite read_only_keeps_world by reflexivity.
    now destruct (System.gateway_user env).
  - unfold Gateway.get_api_users. route. cbn [snd System.channel].
    rewrite read_only_keeps_world by reflexivity.
    now destruct (System.gateway_user env).
  - unfold Gateway.get_api_orders_orderId. route. cbn [snd System.channel].
    rewrite read_only_keeps_world by reflexivity.
    now destruct (System.gateway_order env).
  - unfold Gateway.get_api_users_userId_orders. route. cbn [snd System.channel].
    rewrite read_only_keeps_world by reflexivity.
    now destruct (System.gateway_order env).
  - reflexivity.
  - unfold Gateway.get_api_users_userId_profile. rewrite run_profile.
    destruct (fault (System.gateway_user env)), (fault (System.gateway_order env));
      cbn [System.Promise_all];
      try destruct (System.second_rejects_first env);
      try destruct (UserResponse.success _);
      reflexivity.
Qed.

Lemma get_routes_change_nothing_witness :
  snd (@System.handle Decimal.globals Sample.order_service_down
         (Gateway.GET_api_users_userId_profile "u1") Sample.one_user) =
    Sample.one_user.
Proof.
  apply (@get_routes_change_nothing Decimal.globals Sample.order_service_down
           (Gateway.GET_api_users_userId_profile "u1") Sample.one_user).
  reflexivity.
Defined.

(** X16. The create-user route never touches the order store, and the
    create-order route never touches the user store, whatever the body
    and whatever the channels do. *)
Theorem post_routes_stay_in_their_store
  (globals : JS.Globals) (env : System.Env) (w : System.World) :
  (forall body,
     System.orders (snd (System.handle env (Gateway.POST_api_users body) w)) =
       System.orders w)
  /\ (forall body,
        System.users (snd (System.handle env (Gateway.POST_api_orders body) w)) =
          System.users w).
Proof.
  unfold System.handle. split; intros body; cbn [Gateway.app].
  - unfold Gateway.post_api_users. route. cbn [snd System.channel System.serve].
    unfold System.in_users.
    destruct (UserService.CreateUser _ _ _) as [response us'].
    now destruct (System.gateway_user env).
  - unfold Gateway.post_api_orders. route. cbn [snd System.channel System.serve].
    match goal with
    | |- context [System.run_task ?l (OrderService.CreateOrder ?en ?rq) w] =>
        destruct (CreateOrder_effect en rq l w)
          as [(response & -> & _) | (-> & _)]
    end; now destruct (System.gateway_order env).
Qed.

(** X17. For a user the user store holds, with both calls going
    through, the profile route answers with status 200: the user, the
    orders [GetOrdersByUser] gives for them, and their number; a user
    without orders gets the empty list and a count of 0.  The stores are
    left alone. *)
Theorem profile_of_a_stored_user
  (globals : JS.Globals) (env : System.Env) (userId : string)
  (user : User.t) (w : System.World) :
  userId <> "" ->
  JS.get (System.users w) userId = Some user ->
  System.gateway_user env = Grpc.up ->
  System.gateway_order env = Grpc.up ->
  let userOrders :=
    filter (fun order => (Order.user_id order =? userId)%string)
      (JS.values (System.orders w)) in
  System.handle env (Gateway.GET_api_users_userId_profile userId) w =
    ({| Gateway.status := 200;
        Gateway.body :=
          Gateway.of_ProfileBody
            {| ProfileBody.success := true;
               ProfileBody.message := "User profile retrieved successfully";
               ProfileBody.data :=
                 {| ProfileData.user := Some user;
                    ProfileData.orders := userOrders;
                    ProfileData.order_count := List.length userOrders |} |} |}, w)
  /\ (Forall (fun order => Order.user_id order <> userId)
        (JS.values (System.orders w)) ->
      userOrders = []).
Proof.
  intros Hid Huser Hgu Hgo. cbn zeta. split.
  - unfold System.handle. cbn [Gateway.app].
    unfold Gateway.get_api_users_userId_profile. rewrite run_profile.
    rewrite Hgu, Hgo. cbn [fault System.Promise_all].
    rewrite (@GetUser_present {| GetUserRequest.user_id := userId |}
               (System.users w) user Hid Huser).
    unfold OrderService.GetOrdersByUser, bind, Map_values, ret.
    cbn [GetOrdersByUserRequest.user_id]. rewrite (truthy_string Hid).
    reflexivity.
  - intros Hnone.
    induction (JS.values (System.orders w)) as [| o l IH]; cbn; [reflexivity |].
    inversion Hnone as [| ? ? Ho Hl]; subst.
    apply String.eqb_neq in Ho. rewrite Ho. now apply IH.
Qed.

Lemma profile_of_a_stored_user_witness :
  @System.handle Decimal.globals Sample.calm
    (Gateway.GET_api_users_userId_profile "u1") Sample.one_user =
    ({| Gateway.status := 200;
        Gateway.body :=
          Gateway.of_ProfileBody
            {| ProfileBody.success := true;
               ProfileBody.message := "User profile retrieved successfully";
               ProfileBody.data :=
                 {| ProfileData.user := Some Sample.alex;
                    ProfileData.orders := [];
                    ProfileData.order_count := 0 |} |} |}, Sample.one_user).
Proof.
  apply (@profile_of_a_stored_user Decimal.globals Sample.calm "u1"
           Sample.alex Sample.one_user);
    solve [discriminate | reflexivity].
Defined.

(** X18. Status 404 comes only from the profile route, and only when
    both calls went through and the user service did not find the user:
    the identifier is empty or the user store does not hold it. *)
Theorem only_the_profile_route_answers_404
  (globals : JS.Globals) (env : System.Env) (req : Gateway.request)
  (w : System.World) :
  Gateway.status (fst (System.handle env req w)) = 404 ->
  exists userId,
    req = Gateway.GET_api_users_userId_profile userId
    /\ System.gateway_user env = Grpc.up
    /\ System.gateway_order env = Grpc.up
    /\ (userId = "" \/ JS.get (System.users w) userId = None)
    /\ fst (System.handle env req w) = user_not_found.
Proof.
  unfold System.handle.
  destruct req; cbn [Gateway.app].
  - unfold Gateway.post_api_users. one_call. by_channel env.
  - unfold Gateway.get_api_users_userId.
    destruct (_ || _)%bool; [cbn; discriminate |].
    one_call. by_channel env.
  - unfold Gateway.get_api_users. one_call. by_channel env.
  - unfold Gateway.post_api_orders. one_call. by_channel env.
  - unfold Gateway.get_api_orders_orderId. one_call. by_channel env.
  - unfold Gateway.get_api_users_userId_orders. one_call. by_channel env.
  - cbn. discriminate.
  - unfold Gateway.get_api_users_userId_profile. rewrite run_profile.
    destruct (System.gateway_user env) as [| ? | ?],
             (System.gateway_order env) as [| ? | ?];
      cbn [fault System.Promise_all];
      try (destruct (System.second_rejects_first env); cbn; discriminate);
      try (cbn; discriminate).
    unfold UserService.GetUser, bind, Map_get, ret.
    cbn [GetUserRequest.user_id].
    destruct (JS.falsy_string userId) eqn:E.
    + intros _. exists userId. apply falsy_string_iff in E.
      repeat split; auto.
    + destruct (JS.get (System.users w) userId) eqn:G; cbn; [discriminate |].
      intros _. exists userId. repeat split; auto.
Qed.

Lemma only_the_profile_route_answers_404_witness :
  exists userId,
    Gateway.GET_api_users_userId_profile "ghost" =
      Gateway.GET_api_users_userId_profile userId
    /\ System.gateway_user Sample.calm = Grpc.up
    /\ System.gateway_order Sample.calm = Grpc.up
    /\ (userId = "" \/ JS.get (System.users Sample.one_user) userId = None)
    /\ fst (@System.handle Decimal.globals Sample.calm
              (Gateway.GET_api_users_userId_profile "ghost") Sample.one_user) =
         user_not_found.
Proof.
  apply (@only_the_profile_route_answers_404 Decimal.globals Sample.calm
           (Gateway.GET_api_users_userId_profile "ghost") Sample.one_user).
  reflexivity.
Defined.

(** X19. A transport failure between the order service and the user
    service does not reach the caller as a 500: for a body whose coerced
    fields pass the check, with the gateway's own channel to the order
    service up, the create-order route answers with status 200,
    [success: false] and the message of the transport error, and no store
    changes. *)
Theorem failed_dependency_call_is_answered_200
  (globals : JS.Globals) (env : System.Env) (body : PostOrdersBody.t)
  (e : Grpc.ServiceError) (w : System.World) :
  System.string_field (PostOrdersBody.user_id body) <> "" ->
  System.string_field (PostOrdersBody.product_name body) <> "" ->
  JS.falsy_number (JS.parseFloat (PostOrdersBody.amount body)) = false ->
  JS.ToInt32 (JS.parseInt (PostOrdersBody.quantity body)) <> 0%Z ->
  System.gateway_order env = Grpc.up ->
  fault (System.order_user env) = Some e ->
  System.handle env (Gateway.POST_api_orders body) w =
    ({| Gateway.status := 200;
        Gateway.body :=
          Gateway.of_OrderResponse
            {| OrderResponse.success := false;
               OrderResponse.message := Grpc.message e;
               OrderResponse.order := None |} |}, w).
Proof.
  intros Hid Hproduct Hamount Hquantity Hup Hfault.
  unfold System.handle. cbn [Gateway.app]. unfold Gateway.post_api_orders.
  route. cbn [System.channel System.serve]. rewrite Hup. cbn [fault].
  unfold OrderService.CreateOrder, System.CreateOrderRequest_fromObject.
  cbn [CreateOrderRequest.user_id CreateOrderRequest.product_name
       CreateOrderRequest.amount CreateOrderRequest.quantity
       CreateOrderObject.user_id CreateOrderObject.product_name
       CreateOrderObject.amount CreateOrderObject.quantity].
  rewrite (truthy_string Hid), (truthy_string Hproduct), Hamount.
  apply Z.eqb_neq in Hquantity. unfold OrderService.falsy_int32.
  rewrite Hquantity. cbn [orb]. unfold OrderService.verifyUser.
  rewrite run_task_await.
  destruct (System.order_user env) as [| e' | e']; cbn [fault] in Hfault;
    try discriminate; injection Hfault as ->;
    cbn [System.run_task]; rewrite in_orders_ret; reflexivity.
Qed.

Lemma failed_dependency_call_is_answered_200_witness :
  @System.handle Decimal.globals Sample.orders_cannot_verify
    (Gateway.POST_api_orders
       {| PostOrdersBody.user_id := Some "u1";
          PostOrdersBody.product_name := Some "Widget";
          PostOrdersBody.amount := JS.str "12";
          PostOrdersBody.quantity := JS.num 2%float |}) Sample.one_user =
    ({| Gateway.status := 200;
        Gateway.body :=
          Gateway.of_OrderResponse
            {| OrderResponse.success := false;
               OrderResponse.message := "14 UNAVAILABLE: No connection established";
               OrderResponse.order := None |} |}, Sample.one_user).
Proof.
  apply (@failed_dependency_call_is_answered_200 Decimal.globals
           Sample.orders_cannot_verify
           {| PostOrdersBody.user_id := Some "u1";
              PostOrdersBody.product_name := Some "Widget";
              PostOrdersBody.amount := JS.str "12";
              PostOrdersBody.quantity := JS.num 2%float |}
           Sample.unavailable Sample.one_user);
    cbn; solve [discriminate | reflexivity].
Defined.

(** X20. An order placed through the gateway for a stored user, with
    both channels on its way up: the answer has status 200 and carries the
    stored order, whose amount is [parseFloat] of the body's amount and
    whose quantity is [parseInt] of the body's quantity as an [int32];
    that order is put under its identifier, and the user store is as
    before. *)
Theorem create_order_through_the_gateway
  (globals : JS.Globals) (env : System.Env) (body : PostOrdersBody.t)
  (w : System.World) :
  System.string_field (PostOrdersBody.user_id body) <> "" ->
  System.string_field (PostOrdersBody.product_name body) <> "" ->
  JS.falsy_number (JS.parseFloat (PostOrdersBody.amount body)) = false ->
  JS.ToInt32 (JS.parseInt (PostOrdersBody.quantity body)) <> 0%Z ->
  System.gateway_order env = Grpc.up ->
  System.order_user env = Grpc.up ->
  JS.get (System.users w) (System.string_field (PostOrdersBody.user_id body))
    <> None ->
  let order :=
    {| Order.id := uuid.v4 (rnds (System.order_entropy env));
       Order.user_id := System.string_field (PostOrdersBody.user_id body);
       Order.product_name :=
         System.string_field (PostOrdersBody.product_name body);
       Order.amount := JS.parseFloat (PostOrdersBody.amount body);
       Order.quantity := JS.ToInt32 (JS.parseInt (PostOrdersBody.quantity body));
       Order.status := "pending";
       Order.created_at := now (System.order_entropy env) |} in
  System.handle env (Gateway.POST_api_orders body) w =
    ({| Gateway.status := 200;
        Gateway.body :=
          Gateway.of_OrderResponse
            {| OrderResponse.success := true;
               OrderResponse.message := "Order created successfully";
               OrderResponse.order := Some order |} |},
     {| System.users := System.users w;
        System.orders := JS.set (System.orders w) (Order.id order) order |}).
Proof.
  intros Hid Hproduct Hamount Hquantity Hup Hdep Huser. cbn zeta.
  unfold System.handle. cbn [Gateway.app]. unfold Gateway.post_api_orders.
  route. cbn [System.channel System.serve]. rewrite Hup. cbn [fault].
  match goal with
  | |- context [System.run_task ?l (OrderService.CreateOrder ?en ?rq) w] =>
      destruct (CreateOrder_effect en rq l w)
        as [(response & _ & _ & _ & Hwhy) | (-> & _)]
  end.
  - exfalso. unfold System.CreateOrderRequest_fromObject in Hwhy. cbn in Hwhy.
    rewrite Hdep in Hwhy. cbn in Hwhy.
    destruct Hwhy as [[? | [? | [? | ?]]] | [? | ?]]; congruence.
  - reflexivity.
Qed.

Lemma create_order_through_the_gateway_witness :
  fst (@System.handle Decimal.globals Sample.calm
         (Gateway.POST_api_orders
            {| PostOrdersBody.user_id := Some "u1";
               PostOrdersBody.product_name := Some "Widget";
               PostOrdersBody.amount := JS.str "12";
               PostOrdersBody.quantity := JS.str "2" |}) Sample.one_user) =
    {| Gateway.status := 200;
       Gateway.body :=
         Gateway.of_OrderResponse
           {| OrderResponse.success := true;
              OrderResponse.message := "Order created successfully";
              OrderResponse.order :=
                Some {| Order.id := "01020304-0506-4708-890a-0b0c0d0e0f10";
                        Order.user_id := "u1";
                        Order.product_name := "Widget";
                        Order.amount := 12%float;
                        Order.quantity := 2;
                        Order.status := "pending";
                        Order.created_at := "2024-01-01T00:00:00.000Z" |} |} |}.
Proof.
  rewrite (@create_order_through_the_gateway Decimal.globals Sample.calm
             {| PostOrdersBody.user_id := Some "u1";
                PostOrdersBody.product_name := Some "Widget";
                PostOrdersBody.amount := JS.str "12";
                PostOrdersBody.quantity := JS.str "2" |} Sample.one_user);
    cbn; solve [discriminate | reflexivity].
Defined.

(** X21. A create-user body in which the name or the address is absent,
    [null] or empty reaches the user service with that field empty and is
    refused there: the caller gets "Name and email are required" with
    status 200, or the 500 if the channel failed, and no store changes. *)
Theorem create_user_needs_name_and_email
  (globals : JS.Globals) (env : System.Env) (body : PostUsersBody.t)
  (w : System.World) :
  PostUsersBody.name body = None \/ PostUsersBody.name body = Some ""
  \/ PostUsersBody.email body = None \/ PostUsersBody.email body = Some "" ->
  System.handle env (Gateway.POST_api_users body) w =
    (match fault (System.gateway_user env) with
     | None =>
         {| Gateway.status := 200;
            Gateway.body :=
              Gateway.of_UserResponse
                {| UserResponse.success := false;
                   UserResponse.message := "Name and email are required";
                   UserResponse.user := None |} |}
     | Some e => internal_server_error e
     end, w).
Proof.
  intros Hmissing.
  unfold System.handle. cbn [Gateway.app]. unfold Gateway.post_api_users.
  route. cbn [System.channel System.serve].
  destruct (CreateUser_effect (System.user_entropy env)
              (System.CreateUserRequest_fromObject
                 {| CreateUserObject.name := PostUsersBody.name body;
                    CreateUserObject.email := PostUsersBody.email body |})
              (System.users w))
    as [[Hrun _] | (user & _ & _ & Hname & Hemail & _ & Hn & He)].
  - rewrite in_users_read by (now rewrite Hrun). rewrite Hrun. cbn [fst snd].
    now destruct (System.gateway_user env).
  - exfalso. rewrite Hname in Hn. rewrite Hemail in He. cbn in Hn, He.
    destruct Hmissing as [H | [H | [H | H]]]; rewrite H in *; cbn in *; congruence.
Qed.

Lemma create_user_needs_name_and_email_witness :
  @System.handle Decimal.globals Sample.calm
    (Gateway.POST_api_users
       {| PostUsersBody.name := Some "Alex"; PostUsersBody.email := None |})
    Sample.one_user =
    ({| Gateway.status := 200;
        Gateway.body :=
          Gateway.of_UserResponse
            {| UserResponse.success := false;
               UserResponse.message := "Name and email are required";
               UserResponse.user := None |} |}, Sample.one_user).
Proof.
  apply (@create_user_needs_name_and_email Decimal.globals Sample.calm
           {| PostUsersBody.name := Some "Alex"; PostUsersBody.email := None |}
           Sample.one_user).
  right; right; left. reflexivity.
Defined.

(** Identifiers made by [uuid.v4] and what [trim] and the gateway's own
    check make of them. *)
Lemma hexDigit_not_space (n : Z) : JS.isWhiteSpace (uuid.hexDigit n) = false.
Proof.
  unfold uuid.hexDigit.
  destruct (Z.to_nat n) as [| m]; [reflexivity |].
  do 16 (destruct m as [| m]; [reflexivity |]).
  now destruct m.
Qed.

Lemma v4_no_white_space (rnds : list Z) : no_white_space (uuid.v4 rnds).
Proof.
  unfold uuid.v4, uuid.byteToHex. cbn [String.append no_white_space].
  repeat split; solve [apply hexDigit_not_space | reflexivity].
Qed.

Lemma trim_no_white_space (s : string) : no_white_space s -> JS.trim s = s.
Proof.
  intros H. unfold JS.trim.
  assert (Hstart : JS.trimStart s = s).
  { destruct s as [| c t]; [reflexivity |]. cbn. now rewrite (proj1 H). }
  rewrite Hstart. clear Hstart.
  induction s as [| c t IH]; [reflexivity |].
  destruct H as [Hc Ht]. cbn [JS.trimEnd]. rewrite (IH Ht).
  destruct t; [now rewrite Hc | reflexivity].
Qed.

Lemma v4_passes_local_check (rnds : list Z) :
  JS.falsy_string (uuid.v4 rnds) || (uuid.v4 rnds =? "undefined")
    || (uuid.v4 rnds =? "null") || (JS.trim (uuid.v4 rnds) =? "") = false.
Proof.
  apply local_check_passes.
  rewrite trim_no_white_space by apply v4_no_white_space.
  repeat split; try apply v4_not_empty;
    unfold uuid.v4, uuid.byteToHex; cbn [String.append]; discriminate.
Qed.

(** X22. A user created through the gateway can be fetched through the
    gateway: the identifier in the answer of the create-user route,
    put in the path of the get-user route, passes the gateway's check
    untouched by the trimming and gets that very user back. *)
Theorem created_user_can_be_fetched
  (globals : JS.Globals) (env env' : System.Env) (body : PostUsersBody.t)
  (w : System.World) :
  System.string_field (PostUsersBody.name body) <> "" ->
  System.string_field (PostUsersBody.email body) <> "" ->
  System.gateway_user env = Grpc.up ->
  System.gateway_user env' = Grpc.up ->
  exists (user : User.t) (w1 : System.World),
    System.handle env (Gateway.POST_api_users body) w =
      ({| Gateway.status := 200;
          Gateway.body :=
            Gateway.of_UserResponse
              {| UserResponse.success := true;
                 UserResponse.message := "User created successfully";
                 UserResponse.user := Some user |} |}, w1)
    /\ System.handle env' (Gateway.GET_api_users_userId (User.id user)) w1 =
         ({| Gateway.status := 200;
             Gateway.body :=
               Gateway.of_UserResponse
                 {| UserResponse.success := true;
                    UserResponse.message := "User found";
                    UserResponse.user := Some user |} |}, w1).
Proof.
  intros Hname Hemail Hup Hup'.
  unfold System.handle. cbn [Gateway.app]. unfold Gateway.post_api_users.
  route. cbn [System.channel System.serve]. rewrite Hup. cbn [fault].
  unfold System.in_users.
  destruct (CreateUser_effect (System.user_entropy env)
              (System.CreateUserRequest_fromObject
                 {| CreateUserObject.name := PostUsersBody.name body;
                    CreateUserObject.email := PostUsersBody.email body |})
              (System.users w))
    as [[_ [H | H]] | (user & -> & Hid & _)]; try contradiction.
  cbn [fst snd]. do 2 eexists. split; [reflexivity |].
  rewrite Hid. unfold Gateway.get_api_users_userId.
  rewrite v4_passes_local_check.
  rewrite trim_no_white_space by apply v4_no_white_space.
  route. cbn [System.channel System.serve]. rewrite Hup'. cbn [fault].
  rewrite in_users_read by apply GetUser_keeps_store.
  cbn [System.users fst snd].
  unfold UserService.GetUser, bind, Map_get, ret.
  cbn [GetUserRequest.user_id]. now rewrite v4_truthy, get_set_same.
Qed.

Lemma created_user_can_be_fetched_witness :
  exists (user : User.t) (w1 : System.World),
    @System.handle Decimal.globals Sample.calm
      (Gateway.POST_api_users
         {| PostUsersBody.name := Some "Alex";
            PostUsersBody.email := Some "alex@example.com" |}) boot =
      ({| Gateway.status := 200;
          Gateway.body :=
            Gateway.of_UserResponse
              {| UserResponse.success := true;
                 UserResponse.message := "User created successfully";
                 UserResponse.user := Some user |} |}, w1)
    /\ @System.handle Decimal.globals Sample.calm
         (Gateway.GET_api_users_userId (User.id user)) w1 =
         ({| Gateway.status := 200;
             Gateway.body :=
               Gateway.of_UserResponse
                 {| UserResponse.success := true;
                    UserResponse.message := "User found";
                    UserResponse.user := Some user |} |}, w1).
Proof.
  apply (@created_user_can_be_fetched Decimal.globals Sample.calm Sample.calm
           {| PostUsersBody.name := Some "Alex";
              PostUsersBody.email := Some "alex@example.com" |} boot);
    cbn; solve [discriminate | reflexivity].
Defined.
